(** * RLlib auxiliary spaces: [Repeated], [Simplex] and the [ListBatch] container

    A shallow embedding of [rllib/utils/spaces/simplex.py] and
    [rllib/models/list_batch.py].

    Conventions of the embedding.
    - A Python call that may raise is a function into [result]; the
      exception classes that the two modules can raise are the
      constructors of [exn].
    - Mutable instance attributes are record fields and a method that
      mutates [self] returns the new record.
    - numpy arrays are a dtype, a shape and the entries in row-major
      order.  Entries are rationals, and a cast between float types keeps
      the entries.  Where an answer depends on how numpy rounds or wraps,
      as the one of [Simplex.contains] does, the sums and the comparison
      are those of an arithmetic of the dtype ([DtypeArith]), of which
      the exact one is an instance.
    - The pseudo random generators of numpy are an interface
      ([NumpyRandom]) with the documented contract of [randint] and
      [dirichlet]; the module level generator behind [np.random.dirichlet]
      is a piece of state that is threaded explicitly. *)

From Stdlib Require Import ZArith QArith Qabs Qround String Ascii Bool Lia.
From Stdlib Require Import DecimalString DecimalZ List.
Import ListNotations.

#[local] Set Warnings "-register-all".

Local Open Scope Z_scope.

(* ================================================================= *)
(** ** Exceptions and the result monad *)

Inductive exn : Type :=
| AssertionError
| AttributeError
| IndexError
| TypeError
| ValueError.

Inductive result (A : Type) : Type :=
| Ok (a : A)
| Raise (e : exn).

Arguments Ok {A} a.
Arguments Raise {A} e.

Definition bind {A B : Type} (c : result A) (k : A -> result B) : result B :=
  match c with
  | Ok a => k a
  | Raise e => Raise e
  end.

Notation "x <- c ;; k" := (bind c (fun x => k))
  (at level 61, c at next level, right associativity).
Notation "' p <- c ;; k" := (bind c (fun x => match x with p => k end))
  (at level 61, p pattern, c at next level, right associativity).

(** [assert cond] *)
Definition assert (cond : bool) : result unit :=
  if cond then Ok tt else Raise AssertionError.

(** Does the call return (rather than raise)? *)
Definition returns {A : Type} (c : result A) : Prop :=
  exists a, c = Ok a.

(* ================================================================= *)
(** ** Strings: [str.format] and [str] of an integer *)

Local Open Scope string_scope.

(** [str(n)] for a Python [int]. *)
Definition str_int (n : Z) : string :=
  NilZero.string_of_int (Z.to_int n).

(** [fmt.format( *args )] for a format string whose replacement fields are
    the automatically numbered ["{}"], as in the two modules; ["{{"] and
    ["}}"] are the escaped braces.  A field without an argument is an
    [IndexError], a single brace a [ValueError].  Fields with an index, a
    name or a format specification are not modelled: they fall under the
    single brace. *)
Fixpoint format (fmt : string) (args : list string) : result string :=
  match fmt with
  | EmptyString => Ok EmptyString
  | String "{" (String "}" rest) =>
      match args with
      | a :: args' => r <- format rest args' ;; Ok (a ++ r)
      | [] => Raise IndexError
      end
  | String "{" (String "{" rest) =>
      r <- format rest args ;; Ok (String "{" r)
  | String "}" (String "}" rest) =>
      r <- format rest args ;; Ok (String "}" r)
  | String "{" _ => Raise ValueError
  | String "}" _ => Raise ValueError
  | String c rest => r <- format rest args ;; Ok (String c r)
  end.

(** [needle in s] *)
Definition substring_of (needle s : string) : Prop :=
  exists pre post, s = pre ++ needle ++ post.

(* ================================================================= *)
(** ** [rllib/models/list_batch.py] *)

Module ListBatch.

(** The arguments of the constructor are references to objects of the
    caller; [heap] maps a reference to the object it denotes.  The type
    of the objects (tensors, lists of ints) and their [repr] are
    parameters. *)
Definition ref := nat.

Section WithObjects.
Variable obj : Type.
Variable repr_obj : obj -> string.

Definition heap := ref -> option obj.

Definition update (h : heap) (r : ref) (o : obj) : heap :=
  fun r' => if Nat.eqb r' r then Some o else h r'.

Record t : Type := {
  value : ref;
  lengths : ref;
  max_len : Z
}.

(** [__init__(self, value, lengths, max_len)]: three attribute
    assignments.  The heap is returned as it was: nothing is
    allocated. *)
Definition __init__ (h : heap) (value lengths : ref) (max_len : Z)
  : result (heap * t) :=
  Ok (h, {| value := value; lengths := lengths; max_len := max_len |}).

(** [repr(x)] of the object behind a reference; a dangling reference
    does not occur in Python and is rendered as the empty string. *)
Definition repr_ref (h : heap) (r : ref) : string :=
  match h r with
  | Some o => repr_obj o
  | None => ""
  end.

Definition __repr__ (h : heap) (self : t) : result string :=
  format "ListBatch(value={}, lengths={}, max_len={})"
         [repr_ref h self.(value); repr_ref h self.(lengths);
          str_int self.(max_len)].

Definition __str__ (h : heap) (self : t) : result string :=
  __repr__ h self.

End WithObjects.

End ListBatch.

Arguments ListBatch.heap obj : clear implicits.
Arguments ListBatch.__init__ {obj} h value lengths max_len.
Arguments ListBatch.update {obj} h r o.
Arguments ListBatch.repr_ref {obj} repr_obj h r.
Arguments ListBatch.__repr__ {obj} repr_obj h self.
Arguments ListBatch.__str__ {obj} repr_obj h self.

(* ================================================================= *)
(** ** numpy: arrays and the functions the two modules call *)

Local Close Scope string_scope.
Local Open Scope list_scope.

(** Split [d] into [n] consecutive blocks of [k] entries. *)
Fixpoint chunks {A : Type} (n k : nat) (d : list A) : list (list A) :=
  match n with
  | O => []
  | S n' => firstn k d :: chunks n' k (skipn k d)
  end.

(** [all2 f l1 l2]: [f] holds at every position of the two lists. *)
Fixpoint all2 {A B : Type} (f : A -> B -> bool) (l1 : list A) (l2 : list B)
  : bool :=
  match l1, l2 with
  | x :: l1', y :: l2' => f x y && all2 f l1' l2'
  | _, _ => true
  end.

(** [[f(x) for x in l]] for an [f] that may raise. *)
Fixpoint mapM {A B : Type} (f : A -> result B) (l : list A)
  : result (list B) :=
  match l with
  | [] => Ok []
  | x :: l' => y <- f x ;; ys <- mapM f l' ;; Ok (y :: ys)
  end.

Definition Qsum (l : list Q) : Q := fold_right Qplus 0%Q l.

(** Rounding towards zero, as a cast from float to int does. *)
Definition Qtrunc (q : Q) : Z := Z.quot (Qnum q) (Zpos (Qden q)).

Module np.

Inductive dtype : Type := float32 | float64 | int64.

Record ndarray : Type := {
  dtype_of : dtype;
  shape : list nat;
  data : list Q
}.

(** Number of entries of an array of the given shape. *)
Definition size_of (s : list nat) : nat := fold_right Nat.mul 1%nat s.

Definition integral (q : Q) : Prop := q = inject_Z (Qtrunc q).

(** What an array of numpy satisfies: as many entries as the shape
    says, and whole numbers in an integer array. *)
Definition well_formed (a : ndarray) : Prop :=
  length a.(data) = size_of a.(shape) /\
  (a.(dtype_of) = int64 -> Forall integral a.(data)).

Definition shape_eqb (s1 s2 : list nat) : bool :=
  if list_eq_dec Nat.eq_dec s1 s2 then true else false.

(** The slices along the last axis, one per index of the leading axes,
    in row-major order. *)
Definition rows (a : ndarray) : list (list Q) :=
  chunks (size_of (removelast a.(shape))) (last a.(shape) 0%nat) a.(data).

(** [np.sum(x, axis=-1)] ([AxisError] is a subclass of [ValueError]). *)
Definition sum_last (a : ndarray) : result ndarray :=
  match a.(shape) with
  | [] => Raise ValueError
  | _ => Ok {| dtype_of := a.(dtype_of);
               shape := removelast a.(shape);
               data := map Qsum (rows a) |}
  end.

(** [x[..., 0]] *)
Definition getitem_ellipsis_0 (a : ndarray) : result ndarray :=
  match a.(shape) with
  | [] => Raise IndexError
  | _ => if Nat.eqb (last a.(shape) 0%nat) 0
         then Raise IndexError
         else Ok {| dtype_of := a.(dtype_of);
                    shape := removelast a.(shape);
                    data := map (fun r => nth 0 r 0%Q) (rows a) |}
  end.

Definition ones_like (a : ndarray) : ndarray :=
  {| dtype_of := a.(dtype_of);
     shape := a.(shape);
     data := map (fun _ => 1%Q) a.(data) |}.

(** [x.astype(dt)] *)
Definition astype (a : ndarray) (dt : dtype) : ndarray :=
  {| dtype_of := dt;
     shape := a.(shape);
     data := match dt with
             | int64 => map (fun q => inject_Z (Qtrunc q)) a.(data)
             | _ => a.(data)
             end |}.

(** *** Broadcasting *)

(** The common shape of two shapes, both given last axis first. *)
Fixpoint broadcast_rev (r1 r2 : list nat) : option (list nat) :=
  match r1, r2 with
  | [], _ => Some r2
  | _, [] => Some r1
  | d1 :: r1', d2 :: r2' =>
      match broadcast_rev r1' r2' with
      | None => None
      | Some r =>
          if Nat.eqb d1 d2 then Some (d1 :: r)
          else if Nat.eqb d1 1 then Some (d2 :: r)
          else if Nat.eqb d2 1 then Some (d1 :: r)
          else None
      end
  end.

Definition broadcast_shapes (s1 s2 : list nat) : option (list nat) :=
  option_map (@rev nat) (broadcast_rev (rev s1) (rev s2)).

(** A shape completed with leading axes of length 1 to [n] axes. *)
Definition pad_shape (n : nat) (s : list nat) : list nat :=
  repeat 1%nat (n - length s) ++ s.

(** The entries of an array of shape [src] seen with shape [tgt]; the
    two shapes have the same number of axes, and an axis of [src] is
    as long as the one of [tgt] or has length 1. *)
Fixpoint broadcast_data (src tgt : list nat) (d : list Q) {struct src}
  : list Q :=
  match src, tgt with
  | s :: src', t :: tgt' =>
      if Nat.eqb s t
      then concat (map (broadcast_data src' tgt')
                       (chunks s (size_of src') d))
      else concat (repeat (broadcast_data src' tgt' d) t)
  | _, _ => d
  end.

Definition rtol : Q := 1 # 100000.
Definition atol : Q := 1 # 100000000.

(** [absolute(a - b) <= atol + rtol * absolute(b)] *)
Definition isclose (a b : Q) : bool :=
  Qle_bool (Qabs (a - b)) (atol + rtol * Qabs b).

(** [np.allclose(a, b)] with the default tolerances. *)
Definition allclose (a b : ndarray) : result bool :=
  match broadcast_shapes a.(shape) b.(shape) with
  | None => Raise ValueError
  | Some s =>
      let n := length s in
      Ok (all2 isclose
            (broadcast_data (pad_shape n a.(shape)) s a.(data))
            (broadcast_data (pad_shape n b.(shape)) s b.(data)))
  end.

(** *** Conversion from and to nested lists *)

(** What [tolist] returns and [json] can carry. *)
Inductive nested : Type :=
| PInt (n : Z)
| PFloat (q : Q)
| PList (l : list nested).

(** The common dtype of two arrays that are put in one array. *)
Definition promote (a b : dtype) : dtype :=
  match a, b with
  | int64, int64 => int64
  | float32, float32 => float32
  | _, _ => float64
  end.

(** [np.array(l)] for a list [l] of arrays: the arrays are stacked
    along a new first axis; arrays of different shapes do not make a
    numeric array. *)
Definition stack (l : list ndarray) : result ndarray :=
  match l with
  | [] => Ok {| dtype_of := float64; shape := [0%nat]; data := [] |}
  | a :: l' =>
      if forallb (fun b => shape_eqb b.(shape) a.(shape)) l'
      then Ok {| dtype_of := fold_left promote (map dtype_of l') a.(dtype_of);
                 shape := length l :: a.(shape);
                 data := concat (map data l) |}
      else Raise ValueError
  end.

Definition item (dt : dtype) (q : Q) : nested :=
  match dt with
  | int64 => PInt (Qtrunc q)
  | _ => PFloat q
  end.

Fixpoint tolist_aux (dt : dtype) (s : list nat) (d : list Q) : nested :=
  match s with
  | [] => item dt (hd 0%Q d)
  | n :: s' => PList (map (tolist_aux dt s') (chunks n (size_of s') d))
  end.

(** [x.tolist()] *)
Definition tolist (a : ndarray) : nested :=
  tolist_aux a.(dtype_of) a.(shape) a.(data).

(** [np.asarray(v)] for a nested list of numbers. *)
Fixpoint asarray (v : nested) : result ndarray :=
  match v with
  | PInt n =>
      Ok {| dtype_of := int64; shape := []; data := [inject_Z n] |}
  | PFloat q =>
      Ok {| dtype_of := float64; shape := []; data := [q] |}
  | PList l =>
      subs <- (fix each (l : list nested) : result (list ndarray) :=
                 match l with
                 | [] => Ok []
                 | x :: l' =>
                     a <- asarray x ;; r <- each l' ;; Ok (a :: r)
                 end) l ;;
      stack subs
  end.

End np.

(* ================================================================= *)
(** ** Python values *)

(** The values that reach [contains]: anything a caller may pass. *)
Inductive pyval : Type :=
| PyNone
| PyBool (b : bool)
| PyInt (n : Z)
| PyFloat (q : Q)
| PyStr (s : string)
| PyList (l : list pyval)
| PyTuple (l : list pyval)
| PyArray (a : np.ndarray).

(** [isinstance(x, list)] *)
Definition isinstance_list (x : pyval) : bool :=
  match x with
  | PyList _ => true
  | _ => false
  end.

(** The sequence types of Python among the values of [pyval]. *)
Definition is_sequence (x : pyval) : bool :=
  match x with
  | PyList _ | PyTuple _ | PyStr _ => true
  | _ => false
  end.

(** [len(x)] of a sequence. *)
Definition py_len (x : pyval) : result Z :=
  match x with
  | PyList l | PyTuple l => Ok (Z.of_nat (List.length l))
  | PyStr s => Ok (Z.of_nat (String.length s))
  | _ => Raise TypeError
  end.

(** [x.shape]: only an array has the attribute. *)
Definition getattr_shape (x : pyval) : result (list Z) :=
  match x with
  | PyArray a => Ok (map Z.of_nat a.(np.shape))
  | _ => Raise AttributeError
  end.

(** [all(f(c) for c in l)]: stops at the first element that is not
    accepted. *)
Fixpoint py_all {A : Type} (f : A -> result bool) (l : list A)
  : result bool :=
  match l with
  | [] => Ok true
  | c :: l' => b <- f c ;; if b then py_all f l' else Ok false
  end.

(** Reading an attribute that [__init__] may not have set. *)
Definition getattr {A : Type} (field : option A) : result A :=
  match field with
  | Some v => Ok v
  | None => Raise AttributeError
  end.

(* ================================================================= *)
(** ** [np.random]: the generators *)

(** [np.random.RandomState] and the two draws the spaces make, with the
    contract of numpy's documentation.  [rng] is the state of a generator.
    - [seeded n] is the state after [seed(n)];
    - [randint g low high] draws from the half open range [low, high)
      with the default integer type, 64 bits, and raises [ValueError]
      for an empty range or a bound outside that type;
    - [dirichlet g alpha size] draws [size] vectors of the Dirichlet
      distribution with parameters [alpha]: entries that are not negative
      and sum to one along the last axis. *)
Class NumpyRandom : Type := {
  rng : Type;
  seeded : Z -> rng;
  randint : rng -> Z -> Z -> result (Z * rng);
  dirichlet : rng -> list Q -> list Z -> result (np.ndarray * rng);

  randint_range : forall g low high,
    low < high -> - 2 ^ 63 <= low -> high <= 2 ^ 63 ->
    exists n g', randint g low high = Ok (n, g') /\ low <= n < high;
  randint_empty : forall g low high,
    high <= low -> randint g low high = Raise ValueError;
  randint_bounds : forall g low high,
    low < - 2 ^ 63 \/ 2 ^ 63 < high ->
    randint g low high = Raise ValueError;

  dirichlet_support : forall g alpha size,
    alpha <> [] -> Forall (fun x => (0 < x)%Q) alpha ->
    Forall (fun n => 0 <= n) size ->
    exists a g',
      dirichlet g alpha size = Ok (a, g') /\
      a.(np.dtype_of) = np.float64 /\
      a.(np.shape) = map Z.to_nat size ++ [List.length alpha] /\
      np.well_formed a /\
      Forall (fun x => (0 <= x)%Q) a.(np.data) /\
      Forall (fun r => (Qsum r == 1)%Q) (np.rows a)
}.

(** [RandomState.seed(seed)]: without a seed the state comes from the
    entropy of the operating system, [entropy] here; a seed is an integer
    of 32 bits. *)
Definition RandomState_seed `{NumpyRandom} (seed : option Z) (entropy : rng)
  : result rng :=
  match seed with
  | None => Ok entropy
  | Some n =>
      if (0 <=? n) && (n <? 2 ^ 32) then Ok (seeded n) else Raise ValueError
  end.

(* ================================================================= *)
(** ** [gym.Space]: what a space offers to [Repeated] *)

(** A space has a state (its generator, and those of its children),
    [sample()] that advances it and [contains(x)]. *)
Record Space : Type := {
  sp_state : Type;
  sp_sample : sp_state -> result (pyval * sp_state);
  sp_contains : pyval -> result bool
}.

(* ================================================================= *)
(** ** [rllib/utils/spaces/simplex.py]: [Repeated] *)

Module Repeated.
Section WithChild.
Context `{NumpyRandom}.
Variable child : Space.

Record t : Type := {
  np_random : rng;
  child_space : sp_state child;
  max_len : Z
}.

(** [__init__(self, child_space, max_len)]; the generator of a new
    [RandomState()] starts from the entropy of the system. *)
Definition __init__ (child_space : sp_state child) (max_len : Z)
           (entropy : rng) : t :=
  {| np_random := entropy;
     child_space := child_space;
     max_len := max_len |}.

(** [seed(self, seed=None)]: a new generator, then seeded. *)
Definition seed (self : t) (seed : option Z) (entropy : rng)
  : result t :=
  g <- RandomState_seed seed entropy ;;
  Ok {| np_random := g;
        child_space := self.(child_space);
        max_len := self.(max_len) |}.

(** [[child_space.sample() for _ in range(n)]] *)
Fixpoint draw (n : nat) (c : sp_state child)
  : result (list pyval * sp_state child) :=
  match n with
  | O => Ok ([], c)
  | S n' =>
      '(v, c1) <- sp_sample child c ;;
      '(vs, c2) <- draw n' c1 ;;
      Ok (v :: vs, c2)
  end.

Definition sample (self : t) : result (pyval * t) :=
  '(n, g) <- randint self.(np_random) 1 (self.(max_len) + 1) ;;
  '(vs, c) <- draw (Z.to_nat n) self.(child_space) ;;
  Ok (PyList vs,
      {| np_random := g; child_space := c; max_len := self.(max_len) |}).

Definition contains (self : t) (x : pyval) : result bool :=
  match x with
  | PyList l =>
      if Z.of_nat (List.length l) <=? self.(max_len)
      then py_all (sp_contains child) l
      else Ok false
  | _ => Ok false
  end.

End WithChild.
End Repeated.

Arguments Repeated.np_random {_ child} t.
Arguments Repeated.child_space {_ child} t.
Arguments Repeated.max_len {_ child} t.
Arguments Repeated.__init__ {_ child} child_space max_len entropy.
Arguments Repeated.seed {_ child} self seed entropy.
Arguments Repeated.draw {child} n c.
Arguments Repeated.sample {_ child} self.
Arguments Repeated.contains {_ child} self x.

(* ================================================================= *)
(** ** [rllib/utils/spaces/simplex.py]: [Simplex] *)

Fixpoint join (sep : string) (l : list string) : string :=
  match l with
  | [] => EmptyString
  | [s] => s
  | s :: l' => (s ++ sep ++ join sep l')%string
  end.

(** [str] of a list and of a tuple of ints. *)
Definition str_list (l : list Z) : string :=
  ("[" ++ join ", " (map str_int l) ++ "]")%string.

Definition str_tuple (l : list Z) : string :=
  match l with
  | [n] => ("(" ++ str_int n ++ ",)")%string
  | _ => ("(" ++ join ", " (map str_int l) ++ ")")%string
  end.

Definition Zlist_eqb (l1 l2 : list Z) : bool :=
  if list_eq_dec Z.eq_dec l1 l2 then true else false.

Module Simplex.

(** The [shape] argument: the type of the object and its items. *)
Inductive seq_type : Type := ty_tuple | ty_list | ty_other.

Record shape_arg : Type := {
  type_of : seq_type;
  items : list Z
}.

(** [shape[-1]] *)
Definition getitem_last (s : list Z) : result Z :=
  match s with
  | [] => Raise IndexError
  | _ => Ok (last s 0)
  end.

(** [concentration.shape == shape[:-1]]: the left side is a tuple, the
    slice has the type of [shape], and a tuple is never equal to a
    list. *)
Definition shape_matches (cs : list Z) (shape : shape_arg) : bool :=
  match shape.(type_of) with
  | ty_tuple => Zlist_eqb cs (removelast shape.(items))
  | _ => false
  end.

Section WithRandom.
Context `{NumpyRandom}.

(** The attributes of an instance; [concentration] is the one that
    [__init__] sets on one of its two paths only. *)
Record t : Type := {
  shape : list Z;
  dtype : np.dtype;
  dim : Z;
  concentration : option (list Z);
  np_random : rng
}.

(** [__init__(self, shape, concentration=None, dtype=np.float32)].
    [gym.Space.__init__(shape, dtype)] keeps [tuple(shape)] as
    [self.shape]. *)
Definition __init__ (shape : shape_arg) (concentration : option pyval)
           (dtype : np.dtype) (entropy : rng) : result t :=
  _ <- assert (match shape.(type_of) with
               | ty_tuple | ty_list => true
               | ty_other => false
               end) ;;
  dim <- getitem_last shape.(items) ;;
  conc <- match concentration with
          | Some c =>
              cs <- getattr_shape c ;;
              _ <- assert (shape_matches cs shape) ;;
              Ok None
          | None => Ok (Some (repeat 1 (Z.to_nat dim)))
          end ;;
  Ok {| shape := shape.(items);
        dtype := dtype;
        dim := dim;
        concentration := conc;
        np_random := entropy |}.

(** [seed(self, seed=None)] *)
Definition seed (self : t) (seed : option Z) (entropy : rng)
  : result t :=
  g <- RandomState_seed seed entropy ;;
  Ok {| shape := self.(shape);
        dtype := self.(dtype);
        dim := self.(dim);
        concentration := self.(concentration);
        np_random := g |}.

(** [sample(self)]: the draw is [np.random.dirichlet], the generator
    of the module [np.random], whose state is [g]. *)
Definition sample (self : t) (g : rng) : result (np.ndarray * rng) :=
  conc <- getattr self.(concentration) ;;
  '(a, g') <- dirichlet g (map inject_Z conc) (removelast self.(shape)) ;;
  Ok (np.astype a self.(dtype), g').

Definition contains (self : t) (x : pyval) : result bool :=
  s <- getattr_shape x ;;
  if Zlist_eqb s self.(shape)
  then match x with
       | PyArray a =>
           sums <- np.sum_last a ;;
           x0 <- np.getitem_ellipsis_0 a ;;
           np.allclose sums (np.ones_like x0)
       | _ => Raise AttributeError
       end
  else Ok false.

Definition to_jsonable (self : t) (sample_n : list np.ndarray)
  : result np.nested :=
  a <- np.stack sample_n ;;
  Ok (np.tolist a).

Definition from_jsonable (self : t) (sample_n : np.nested)
  : result (list np.ndarray) :=
  match sample_n with
  | np.PList l => mapM np.asarray l
  | _ => Raise TypeError
  end.

Definition __repr__ (self : t) : result string :=
  conc <- getattr self.(concentration) ;;
  format "Simplex({}; {})" [str_tuple self.(shape); str_list conc].

Definition __eq__ (self other : t) : result bool :=
  c1 <- getattr self.(concentration) ;;
  c2 <- getattr other.(concentration) ;;
  a1 <- np.asarray (np.PList (map np.PInt c1)) ;;
  a2 <- np.asarray (np.PList (map np.PInt c2)) ;;
  close <- np.allclose a1 a2 ;;
  Ok (close && Zlist_eqb self.(shape) other.(shape)).

(** A simplex as a child of [Repeated]: its state is the generator of
    [np.random]. *)
Definition as_space (self : t) : Space :=
  {| sp_state := rng;
     sp_sample := fun g =>
       '(a, g') <- sample self g ;; Ok (PyArray a, g');
     sp_contains := contains self |}.

End WithRandom.
End Simplex.

(** [tuple] and [list] arguments for [shape]. *)
Definition tuple_shape (l : list Z) : Simplex.shape_arg :=
  {| Simplex.type_of := Simplex.ty_tuple; Simplex.items := l |}.

Definition list_shape (l : list Z) : Simplex.shape_arg :=
  {| Simplex.type_of := Simplex.ty_list; Simplex.items := l |}.

(** [gym.spaces.Discrete(n)], a child space for the examples: [sample]
    draws from [0, n), [contains] accepts the ints of that range, a
    [bool] being the int 0 or 1. *)
Definition Discrete `{NumpyRandom} (n : Z) : Space :=
  {| sp_state := rng;
     sp_sample := fun g => '(k, g') <- randint g 0 n ;; Ok (PyInt k, g');
     sp_contains := fun x =>
       match x with
       | PyInt k => Ok ((0 <=? k) && (k <? n))
       | PyBool b => let k := if b then 1 else 0 in Ok ((0 <=? k) && (k <? n))
       | PyArray {| np.dtype_of := np.int64; np.shape := []; np.data := d |} =>
           let k := Qtrunc (hd 0%Q d) in Ok ((0 <=? k) && (k <? n))
       | _ => Ok false
       end |}.

(** A list space as the child of another one (lists of lists).  Its state
    is its generator and the state of its own child; [max_len] is that of
    [self] and [sample()] never changes it. *)
Definition Repeated_as_space `{NumpyRandom} (child : Space)
           (self : Repeated.t child) : Space :=
  {| sp_state := (rng * sp_state child)%type;
     sp_sample := fun st =>
       '(x, self') <- Repeated.sample
                        {| Repeated.np_random := fst st;
                           Repeated.child_space := snd st;
                           Repeated.max_len := self.(Repeated.max_len) |} ;;
       Ok (x, (self'.(Repeated.np_random), self'.(Repeated.child_space)));
     sp_contains := Repeated.contains self |}.

(* ================================================================= *)
(** ** The arithmetic of a dtype

    [np.sum] adds in the dtype of the array and [np.allclose] compares
    in it: [float32] and [float64] round each result, [int64] wraps
    around.  The class keeps the two operations, on the rationals that
    stand for the entries, and what is known of them whatever the
    rounding: next to 1, a computed sum within [1e-5] of 1 is close and
    one that is [2e-5] or more away is not (the tolerance
    [atol + rtol * 1] lies in between); and a float sum of at most 1024
    multiples of [1/2], each of absolute value at most 512, is exact. *)

Class DtypeArith : Type := {
  (** [np.sum] of one slice of an array of the dtype *)
  sum_in : np.dtype -> list Q -> Q;
  (** [absolute(a - b) <= atol + rtol * absolute(b)] in the dtype *)
  isclose_in : np.dtype -> Q -> Q -> bool;
  isclose_near : forall dt s,
      (Qabs (s - 1) <= 1 # 100000)%Q -> isclose_in dt s 1 = true;
  isclose_far : forall dt s,
      (2 # 100000 <= Qabs (s - 1))%Q -> isclose_in dt s 1 = false;
  sum_of_halves : forall dt r,
      dt <> np.int64 ->
      Forall (fun q => exists k : Z, (q == k # 2)%Q /\ -1024 <= k <= 1024) r ->
      (length r <= 1024)%nat ->
      (sum_in dt r == Qsum r)%Q
}.

(** [Simplex.contains] with the sums and the comparison computed in
    the dtype of the array. *)
Module InDtype.
Section WithArith.
Context {random : NumpyRandom} {arith : DtypeArith}.

(** [np.sum(x, axis=-1)] *)
Definition sum_last (a : np.ndarray) : result np.ndarray :=
  match a.(np.shape) with
  | [] => Raise ValueError
  | _ => Ok {| np.dtype_of := a.(np.dtype_of);
               np.shape := removelast a.(np.shape);
               np.data := map (sum_in a.(np.dtype_of)) (np.rows a) |}
  end.

(** [np.allclose(a, b)] with the default tolerances. *)
Definition allclose (a b : np.ndarray) : result bool :=
  match np.broadcast_shapes a.(np.shape) b.(np.shape) with
  | None => Raise ValueError
  | Some s =>
      let n := length s in
      Ok (all2 (isclose_in (np.promote a.(np.dtype_of) b.(np.dtype_of)))
            (np.broadcast_data (np.pad_shape n a.(np.shape)) s a.(np.data))
            (np.broadcast_data (np.pad_shape n b.(np.shape)) s b.(np.data)))
  end.

Definition contains (self : Simplex.t) (x : pyval) : result bool :=
  s <- getattr_shape x ;;
  if Zlist_eqb s self.(Simplex.shape)
  then match x with
       | PyArray a =>
           sums <- sum_last a ;;
           x0 <- np.getitem_ellipsis_0 a ;;
           allclose sums (np.ones_like x0)
       | _ => Raise AttributeError
       end
  else Ok false.

End WithArith.
End InDtype.

(** *** Two arithmetics

    The exact one, which [np.sum_last] and [np.allclose] above compute
    in; and a machine arithmetic that rounds every float addition to
    the nearest multiple of [2^-23] ([float32], its spacing on [1, 2))
    or [2^-52] ([float64]), ties to even, and wraps every [int64]
    addition around [2^63]. *)

Definition round_to (den : positive) (q : Q) : Q :=
  let t := Qnum q * Zpos den in
  let b := Zpos (Qden q) in
  let k := t / b in
  let r := t mod b in
  (match 2 * r ?= b with
   | Lt => k
   | Gt => k + 1
   | Eq => if Z.even k then k else k + 1
   end) # den.

Definition wrap_int64 (n : Z) : Z := (n + 2 ^ 63) mod 2 ^ 64 - 2 ^ 63.

Definition machine_add (dt : np.dtype) (a b : Q) : Q :=
  match dt with
  | np.float32 => round_to 8388608 (a + b)
  | np.float64 => round_to 4503599627370496 (a + b)
  | np.int64 => inject_Z (wrap_int64 (Qfloor (a + b)))
  end.

Definition machine_sum (dt : np.dtype) (l : list Q) : Q :=
  fold_left (machine_add dt) l 0%Q.

(* ================================================================= *)
(** ** Vocabulary of the properties *)

(** The tolerance of [allclose] against 1: [atol + rtol * 1]. *)
Definition within_tolerance (s : Q) : Prop :=
  (Qabs (s - 1) <= np.atol + np.rtol)%Q.

(** [type(shape) in [tuple, list]] *)
Definition accepted_type (shape : Simplex.shape_arg) : Prop :=
  shape.(Simplex.type_of) = Simplex.ty_tuple \/
  shape.(Simplex.type_of) = Simplex.ty_list.


(** [[0.5, 0.5 + 167 * 2^-24]] in [float32]: the exact sum is within
    the tolerance of 1, the rounded one is not. *)
Definition rounds_away : np.ndarray :=
  {| np.dtype_of := np.float32;
     np.shape := [2%nat];
     np.data := [(1 # 2)%Q; (8388775 # 16777216)%Q] |}.

(** [[2^62, 2^62, 2^62, 2^62, 1]] in [int64]: the sum wraps around
    to 1. *)
Definition wraps_to_1 : np.ndarray :=
  {| np.dtype_of := np.int64;
     np.shape := [5%nat];
     np.data := [inject_Z (2 ^ 62); inject_Z (2 ^ 62); inject_Z (2 ^ 62);
                 inject_Z (2 ^ 62); 1%Q] |}.


(** [np.ones(2)], a [concentration] that the assertion of
    [Simplex((2, 3), concentration)] lets through. *)
Definition ones_2 : np.ndarray :=
  {| np.dtype_of := np.float64; np.shape := [2%nat];
     np.data := [1%Q; 1%Q] |}.

(** Two points of the simplex of shape [(2,)]. *)
Definition half_half : np.ndarray :=
  {| np.dtype_of := np.float32; np.shape := [2%nat];
     np.data := [(1 # 2)%Q; (1 # 2)%Q] |}.

Definition quarter_rest : np.ndarray :=
  {| np.dtype_of := np.float32; np.shape := [2%nat];
     np.data := [(1 # 4)%Q; (3 # 4)%Q] |}.

(** What [np.asarray] finds for the nested list of an array of shape
    [s]: an axis of length 0 hides the axes after it. *)
Fixpoint listed_shape (s : list nat) : list nat :=
  match s with
  | [] => []
  | n :: s' => if Nat.eqb n 0 then [0%nat] else n :: listed_shape s'
  end.

(** And its dtype: that of Python's numbers, [float64] for an empty
    list. *)
Fixpoint listed_dtype (dt : np.dtype) (s : list nat) : np.dtype :=
  match s with
  | [] => match dt with np.int64 => np.int64 | _ => np.float64 end
  | n :: s' => if Nat.eqb n 0 then np.float64 else listed_dtype dt s'
  end.

(** The elements of a sequence. *)
Definition py_items (x : pyval) : list pyval :=
  match x with
  | PyList l | PyTuple l => l
  | PyStr s => map (fun c => PyStr (String c EmptyString))
                   (list_ascii_of_string s)
  | _ => []
  end.

(** The condition in the words of the specification: [x] is a sequence
    type, [len(x) <= max_len], and every element of [x] satisfies
    [child_space.contains]. *)
Definition sequence_condition (child : Space) (max_len : Z) (x : pyval)
  : Prop :=
  is_sequence x = true /\
  (exists n, py_len x = Ok n /\ n <= max_len) /\
  Forall (fun c => sp_contains child c = Ok true) (py_items x).

(* ================================================================= *)
(** ** A generator to run the spaces on

    A linear congruential generator that implements [NumpyRandom]; the
    examples below evaluate the spaces on it.  Its Dirichlet draw moves
    the first parameter by the two low bits of the state and
    normalises. *)

Definition lcg_next (g : Z) : Z :=
  (6364136223846793005 * g + 1442695040888963407) mod 2 ^ 64.

Definition lcg_randint (g low high : Z) : result (Z * Z) :=
  if (low <? high) && (- 2 ^ 63 <=? low) && (high <=? 2 ^ 63)
  then Ok (low + (lcg_next g / 2 ^ 33) mod (high - low), lcg_next g)
  else Raise ValueError.

Definition Qpositive (x : Q) : bool := negb (Qle_bool x 0).

Definition normalise (l : list Q) : list Q :=
  map (fun x => (x / Qsum l)%Q) l.

Definition perturb (g : Z) (alpha : list Q) : list Q :=
  match alpha with
  | [] => []
  | a :: r => (a + inject_Z (g mod 4))%Q :: r
  end.

Definition lcg_dirichlet (g : Z) (alpha : list Q) (size : list Z)
  : result (np.ndarray * Z) :=
  match alpha with
  | [] => Raise ValueError
  | _ =>
      if forallb Qpositive alpha && forallb (fun n => 0 <=? n) size
      then
        let dims := map Z.to_nat size in
        Ok ({| np.dtype_of := np.float64;
               np.shape := dims ++ [List.length alpha];
               np.data := concat (repeat (normalise (perturb g alpha))
                                         (np.size_of dims)) |},
            lcg_next g)
      else Raise ValueError
  end.

(* ================================================================= *)
(** * Properties *)

(** ** The result monad *)

Lemma bind_Ok_inv {A B : Type} (c : result A) (k : A -> result B) (b : B) :
  bind c k = Ok b -> exists a, c = Ok a /\ k a = Ok b.
Proof.
  destruct c as [a|e]; simpl; intros Hk.
  - exists a; split; [reflexivity | exact Hk].
  - discriminate Hk.
Qed.

(** [bind_inv H as pat]: a [bind] that returns went through both of its
    parts. *)
Tactic Notation "bind_inv" hyp(H) "as" simple_intropattern(pat) :=
  apply bind_Ok_inv in H; destruct H as pat.

Lemma mapM_Ok {A B : Type} (f : A -> result B) (g : A -> B) (l : list A) :
  Forall (fun x => f x = Ok (g x)) l -> mapM f l = Ok (map g l).
Proof.
  induction 1 as [|x l Hx _ IH]; simpl.
  - reflexivity.
  - rewrite Hx; simpl. rewrite IH; reflexivity.
Qed.

Lemma mapM_map {A B C : Type} (f : B -> result C) (h : A -> B)
      (l : list A) :
  mapM f (map h l) = mapM (fun x => f (h x)) l.
Proof.
  induction l as [|x l IH]; simpl; [reflexivity | now rewrite IH].
Qed.

Lemma py_all_true {A : Type} (f : A -> result bool) (l : list A) :
  py_all f l = Ok true <-> Forall (fun c => f c = Ok true) l.
Proof.
  induction l as [|c l IH]; simpl.
  - split; [constructor | reflexivity].
  - split.
    + intros Hall. destruct (f c) as [[|]|e] eqn:Hc; simpl in Hall;
        try discriminate Hall.
      constructor; [exact Hc | apply IH; exact Hall].
    + intros Hall. inversion Hall as [|? ? Hc Hl]; subst.
      rewrite Hc; simpl. apply IH; exact Hl.
Qed.

Lemma py_all_returns {A : Type} (f : A -> result bool) (l : list A) :
  Forall (fun c => returns (f c)) l -> returns (py_all f l).
Proof.
  induction 1 as [|c l [b Hc] _ IH]; simpl.
  - exists true; reflexivity.
  - rewrite Hc; simpl. destruct b; [exact IH | exists false; reflexivity].
Qed.

(** ** Blocks of a list *)

Section Chunks.
Context {A : Type}.
Implicit Types (d : list A) (ls : list (list A)).

Lemma chunks_length n k d : List.length (chunks n k d) = n.
Proof.
  revert d; induction n as [|n IH]; intros d; simpl;
    [reflexivity | now rewrite IH].
Qed.

Lemma chunks_block_length n k d :
  List.length d = (n * k)%nat ->
  Forall (fun c => List.length c = k) (chunks n k d).
Proof.
  revert d; induction n as [|n IH]; intros d Hd; simpl.
  - constructor.
  - constructor.
    + rewrite length_firstn. lia.
    + apply IH. rewrite length_skipn. lia.
Qed.

Lemma concat_chunks n k d :
  List.length d = (n * k)%nat -> concat (chunks n k d) = d.
Proof.
  revert d; induction n as [|n IH]; intros d Hd; simpl.
  - destruct d; [reflexivity | discriminate Hd].
  - rewrite IH.
    + apply firstn_skipn.
    + rewrite length_skipn. lia.
Qed.

Lemma chunks_concat k ls :
  Forall (fun c => List.length c = k) ls ->
  chunks (List.length ls) k (concat ls) = ls.
Proof.
  induction 1 as [|c ls Hc _ IH]; simpl.
  - reflexivity.
  - rewrite firstn_app, skipn_app, Hc, Nat.sub_diag.
    rewrite firstn_all2 by lia. rewrite skipn_all2 by lia.
    simpl. rewrite app_nil_r, IH. reflexivity.
Qed.

Lemma concat_length_blocks k ls :
  Forall (fun c => List.length c = k) ls ->
  List.length (concat ls) = (List.length ls * k)%nat.
Proof.
  induction 1 as [|c ls Hc _ IH]; simpl.
  - reflexivity.
  - rewrite length_app, IH, Hc. reflexivity.
Qed.

Lemma map_id_on (f : list A -> list A) ls :
  Forall (fun c => f c = c) ls -> map f ls = ls.
Proof.
  induction 1 as [|c ls Hc _ IH]; simpl; [reflexivity | now rewrite Hc, IH].
Qed.

End Chunks.

Lemma Forall_repeat {A : Type} (P : A -> Prop) (x : A) (n : nat) :
  P x -> Forall P (repeat x n).
Proof.
  intros Hx. induction n; simpl; constructor; assumption.
Qed.

Lemma size_of_app (s1 s2 : list nat) :
  np.size_of (s1 ++ s2) = (np.size_of s1 * np.size_of s2)%nat.
Proof.
  induction s1 as [|n s1 IH]; simpl.
  - lia.
  - unfold np.size_of in *; simpl. rewrite IH. lia.
Qed.

Lemma size_of_split (s : list nat) :
  s <> [] ->
  np.size_of s = (np.size_of (removelast s) * last s 0%nat)%nat.
Proof.
  intros Hs. rewrite (app_removelast_last 0%nat Hs) at 1.
  rewrite size_of_app. unfold np.size_of at 2; simpl. lia.
Qed.

(** ** The generator [lcg] meets the contract of [NumpyRandom] *)

Lemma Qsum_nonneg (l : list Q) :
  Forall (fun x => (0 < x)%Q) l -> (0 <= Qsum l)%Q.
Proof.
  induction 1 as [|x l Hx _ IH]; simpl.
  - apply Qle_refl.
  - apply Qlt_le_weak in Hx.
    setoid_replace 0%Q with (0 + 0)%Q by ring.
    apply Qplus_le_compat; assumption.
Qed.

Lemma Qsum_pos (l : list Q) :
  l <> [] -> Forall (fun x => (0 < x)%Q) l -> (0 < Qsum l)%Q.
Proof.
  intros Hne Hall. destruct Hall as [|x l Hx Hl]; [congruence|].
  simpl. apply Qsum_nonneg in Hl.
  setoid_replace 0%Q with (0 + 0)%Q by ring.
  apply Qplus_lt_le_compat; assumption.
Qed.

Lemma Qsum_div (t : Q) (l : list Q) :
  (Qsum (map (fun x => x / t) l) == Qsum l / t)%Q.
Proof.
  induction l as [|x l IH]; simpl.
  - unfold Qdiv. ring.
  - rewrite IH. unfold Qdiv. ring.
Qed.

Lemma normalise_sum (l : list Q) :
  (0 < Qsum l)%Q -> (Qsum (normalise l) == 1)%Q.
Proof.
  intros Hpos. unfold normalise. rewrite Qsum_div.
  unfold Qdiv. apply Qmult_inv_r.
  intros Hz. rewrite Hz in Hpos. exact (Qlt_irrefl _ Hpos).
Qed.

Lemma normalise_nonneg (l : list Q) :
  l <> [] -> Forall (fun x => (0 < x)%Q) l ->
  Forall (fun x => (0 <= x)%Q) (normalise l).
Proof.
  intros Hne Hall. pose proof (Qsum_pos l Hne Hall) as Hpos.
  unfold normalise. apply Forall_map.
  eapply Forall_impl; [|exact Hall].
  intros x Hx; simpl. apply Qlt_le_weak.
  apply Qlt_shift_div_l; [exact Hpos|].
  setoid_replace (0 * Qsum l)%Q with 0%Q by ring. exact Hx.
Qed.

Lemma perturb_positive (g : Z) (alpha : list Q) :
  Forall (fun x => (0 < x)%Q) alpha ->
  Forall (fun x => (0 < x)%Q) (perturb g alpha).
Proof.
  intros Hall. destruct Hall as [|a r Ha Hr]; simpl; constructor;
    [|exact Hr].
  assert (Hm : (0 <= inject_Z (g mod 4))%Q).
  { change 0%Q with (inject_Z 0). rewrite <- Zle_Qle.
    apply Z.mod_pos_bound. lia. }
  setoid_replace 0%Q with (0 + 0)%Q by ring.
  apply Qplus_lt_le_compat; assumption.
Qed.

Lemma perturb_length (g : Z) (alpha : list Q) :
  List.length (perturb g alpha) = List.length alpha.
Proof. destruct alpha; reflexivity. Qed.

Lemma Qpositive_spec (x : Q) : Qpositive x = true <-> (0 < x)%Q.
Proof.
  unfold Qpositive. rewrite negb_true_iff.
  destruct (Qle_bool x 0) eqn:Hle; split; intros Hx; try reflexivity;
    try discriminate Hx.
  - apply Qle_bool_iff in Hle. exfalso.
    exact (Qlt_irrefl _ (Qlt_le_trans _ _ _ Hx Hle)).
  - apply Qnot_le_lt. intros Hc. apply Qle_bool_iff in Hc. congruence.
Qed.

Lemma lcg_randint_range (g low high : Z) :
  low < high -> - 2 ^ 63 <= low -> high <= 2 ^ 63 ->
  exists n g', lcg_randint g low high = Ok (n, g') /\ low <= n < high.
Proof.
  intros Hlt Hlow Hhigh. unfold lcg_randint.
  destruct (Z.ltb_spec low high); [|lia].
  destruct (Z.leb_spec (- 2 ^ 63) low); [|lia].
  destruct (Z.leb_spec high (2 ^ 63)); [|lia].
  cbn [andb]. eexists; eexists; split; [reflexivity|].
  pose proof (Z.mod_pos_bound (lcg_next g / 2 ^ 33) (high - low)).
  lia.
Qed.

Lemma lcg_randint_empty (g low high : Z) :
  high <= low -> lcg_randint g low high = Raise ValueError.
Proof.
  intros Hle. unfold lcg_randint.
  destruct (Z.ltb_spec low high); [lia|]. reflexivity.
Qed.

Lemma lcg_randint_bounds (g low high : Z) :
  low < - 2 ^ 63 \/ 2 ^ 63 < high ->
  lcg_randint g low high = Raise ValueError.
Proof.
  intros Hout. unfold lcg_randint.
  destruct (low <? high); cbn [andb]; [|reflexivity].
  destruct (Z.leb_spec (- 2 ^ 63) low); cbn [andb]; [|reflexivity].
  destruct (Z.leb_spec high (2 ^ 63)); [lia|reflexivity].
Qed.

Lemma lcg_dirichlet_support (g : Z) (alpha : list Q) (size : list Z) :
  alpha <> [] -> Forall (fun x => (0 < x)%Q) alpha ->
  Forall (fun n => 0 <= n) size ->
  exists a g',
    lcg_dirichlet g alpha size = Ok (a, g') /\
    a.(np.dtype_of) = np.float64 /\
    a.(np.shape) = map Z.to_nat size ++ [List.length alpha] /\
    np.well_formed a /\
    Forall (fun x => (0 <= x)%Q) a.(np.data) /\
    Forall (fun r => (Qsum r == 1)%Q) (np.rows a).
Proof.
  intros Hne Hpos Hsize. unfold lcg_dirichlet.
  destruct alpha as [|a0 alpha']; [congruence|].
  set (alpha := a0 :: alpha') in *.
  assert (Hchk : forallb Qpositive alpha
                 && forallb (fun n => 0 <=? n) size = true).
  { apply andb_true_iff; split; apply forallb_forall; intros x Hx.
    - apply Qpositive_spec. rewrite Forall_forall in Hpos. auto.
    - apply Z.leb_le. rewrite Forall_forall in Hsize. auto. }
  rewrite Hchk.
  set (row := normalise (perturb g alpha)).
  set (dims := map Z.to_nat size).
  assert (Hrow : List.length row = List.length alpha).
  { unfold row, normalise. rewrite length_map. apply perturb_length. }
  assert (Hblocks : Forall (fun c => List.length c = List.length alpha)
                           (repeat row (np.size_of dims))).
  { apply Forall_repeat. exact Hrow. }
  assert (Hp : Forall (fun x => (0 < x)%Q) (perturb g alpha))
    by (apply perturb_positive; exact Hpos).
  assert (Hpne : perturb g alpha <> []) by (unfold alpha; simpl; congruence).
  eexists; eexists; split; [reflexivity|].
  split; [reflexivity|]. split; [reflexivity|].
  split; [|split].
  - split; simpl.
    + rewrite (concat_length_blocks _ _ Hblocks), repeat_length.
      rewrite size_of_app. unfold np.size_of at 3; simpl. lia.
    + discriminate.
  - simpl. apply Forall_concat. apply Forall_repeat.
    apply normalise_nonneg; assumption.
  - unfold np.rows; cbn [np.shape np.data].
    rewrite removelast_last, last_last.
    pose proof (chunks_concat _ _ Hblocks) as Hrows.
    rewrite repeat_length in Hrows. rewrite Hrows.
    apply Forall_repeat. apply normalise_sum. apply Qsum_pos; assumption.
Qed.

#[export] Instance lcg : NumpyRandom := {
  rng := Z;
  seeded := fun n => n;
  randint := lcg_randint;
  dirichlet := lcg_dirichlet;
  randint_range := lcg_randint_range;
  randint_empty := lcg_randint_empty;
  randint_bounds := lcg_randint_bounds;
  dirichlet_support := lcg_dirichlet_support
}.

(** ** The embedding on concrete inputs *)

Example format_fields :
  format "a{}b{{}}c{}" ["X"; "Y"]%string = Ok "aXb{}cY"%string /\
  format "{} and {}" ["X"]%string = Raise IndexError /\
  format "a}b" ["X"]%string = Raise ValueError.
Proof. repeat split; reflexivity. Qed.

Example str_of_ints :
  str_int 5 = "5"%string /\ str_int (-12) = "-12"%string /\
  str_tuple [3] = "(3,)"%string /\ str_tuple [3; 4] = "(3, 4)"%string /\
  str_list [1; 1; 1] = "[1, 1, 1]"%string.
Proof. repeat split; reflexivity. Qed.

Example tolist_2_2 :
  np.tolist {| np.dtype_of := np.float32; np.shape := [2; 2]%nat;
               np.data := [1 # 2; 1 # 2; 1 # 4; 3 # 4]%Q |}
  = np.PList [np.PList [np.PFloat (1 # 2); np.PFloat (1 # 2)];
              np.PList [np.PFloat (1 # 4); np.PFloat (3 # 4)]].
Proof. reflexivity. Qed.

Example asarray_ragged :
  np.asarray (np.PList [np.PList [np.PInt 1; np.PInt 2];
                        np.PList [np.PInt 3]])
  = Raise ValueError.
Proof. reflexivity. Qed.

Example asarray_mixed_numbers :
  np.asarray (np.PList [np.PInt 1; np.PFloat (5 # 2)])
  = Ok {| np.dtype_of := np.float64; np.shape := [2%nat];
          np.data := [inject_Z 1; (5 # 2)%Q] |}.
Proof. reflexivity. Qed.

Example allclose_broadcasts :
  np.allclose {| np.dtype_of := np.int64; np.shape := [1%nat];
                 np.data := [1%Q] |}
              {| np.dtype_of := np.int64; np.shape := [3%nat];
                 np.data := [1%Q; 1%Q; 1%Q] |}
  = Ok true /\
  np.allclose {| np.dtype_of := np.int64; np.shape := [2%nat];
                 np.data := [1%Q; 1%Q] |}
              {| np.dtype_of := np.int64; np.shape := [3%nat];
                 np.data := [1%Q; 1%Q; 1%Q] |}
  = Raise ValueError.
Proof. split; reflexivity. Qed.

(** [Simplex(shape=(2, 3))]; the ways [__init__] raises; [repr] and [==]
    of the default instance. *)
Example Simplex_construction :
  Simplex.__init__ (tuple_shape [2; 3]) None np.float32 7
  = Ok {| Simplex.shape := [2; 3];
          Simplex.dtype := np.float32;
          Simplex.dim := 3;
          Simplex.concentration := Some [1; 1; 1];
          Simplex.np_random := 7 |} /\
  Simplex.__init__ {| Simplex.type_of := Simplex.ty_other;
                      Simplex.items := [2; 3] |} None np.float32 7
  = Raise AssertionError /\
  Simplex.__init__ (tuple_shape []) None np.float32 7 = Raise IndexError /\
  Simplex.__init__ (tuple_shape [2; 3]) (Some (PyList [PyInt 1; PyInt 1]))
                   np.float32 7
  = Raise AttributeError /\
  Simplex.__init__ (tuple_shape [2; 3]) (Some (PyArray ones_2))
                   np.float32 7
  = Ok {| Simplex.shape := [2; 3];
          Simplex.dtype := np.float32;
          Simplex.dim := 3;
          Simplex.concentration := None;
          Simplex.np_random := 7 |} /\
  Simplex.__init__ (list_shape [2; 3]) (Some (PyArray ones_2))
                   np.float32 7
  = Raise AssertionError /\
  (s <- Simplex.__init__ (tuple_shape [2; 3]) None np.float32 7 ;;
   Simplex.__repr__ s) = Ok "Simplex((2, 3); [1, 1, 1])"%string /\
  (s <- Simplex.__init__ (tuple_shape [2; 3]) None np.float32 7 ;;
   s' <- Simplex.__init__ (list_shape [2; 3]) None np.float64 8 ;;
   Simplex.__eq__ s s') = Ok true.
Proof. repeat split; reflexivity. Qed.

(** [Repeated(Discrete(5), max_len=4)]: a draw, and what [contains]
    says of it and of longer or foreign lists. *)
Example Repeated_on_lcg :
  let space := Repeated.__init__ (child := Discrete 5) 3 4 11 in
  (exists self', Repeated.sample space = Ok (PyList [PyInt 4], self')) /\
  Repeated.contains space (PyList [PyInt 4]) = Ok true /\
  Repeated.contains space (PyList [PyInt 5]) = Ok false /\
  Repeated.contains space
    (PyList [PyInt 0; PyInt 1; PyInt 2; PyInt 3; PyInt 4]) = Ok false /\
  Repeated.contains space (PyList []) = Ok true.
Proof.
  split; [eexists; reflexivity|]. repeat split; reflexivity.
Qed.

(** ** numpy: broadcasting of equal shapes, [allclose] against ones *)

Lemma broadcast_rev_same (r : list nat) : np.broadcast_rev r r = Some r.
Proof.
  induction r as [|d r IH]; simpl.
  - reflexivity.
  - rewrite IH, Nat.eqb_refl. reflexivity.
Qed.

Lemma broadcast_shapes_same (s : list nat) : np.broadcast_shapes s s = Some s.
Proof.
  unfold np.broadcast_shapes. rewrite broadcast_rev_same. simpl.
  rewrite rev_involutive. reflexivity.
Qed.

Lemma pad_shape_same (s : list nat) : np.pad_shape (List.length s) s = s.
Proof. unfold np.pad_shape. rewrite Nat.sub_diag. reflexivity. Qed.

Lemma broadcast_data_same (s : list nat) :
  forall d, List.length d = np.size_of s -> np.broadcast_data s s d = d.
Proof.
  induction s as [|n s IH]; intros d Hd; simpl.
  - reflexivity.
  - rewrite Nat.eqb_refl.
    assert (Hlen : List.length d = (n * np.size_of s)%nat) by exact Hd.
    rewrite map_id_on.
    + apply concat_chunks. exact Hlen.
    + eapply Forall_impl; [|apply chunks_block_length; exact Hlen].
      intros c Hc. apply IH. exact Hc.
Qed.

Lemma allclose_same_shape (a b : np.ndarray) :
  a.(np.shape) = b.(np.shape) ->
  List.length a.(np.data) = np.size_of a.(np.shape) ->
  List.length b.(np.data) = np.size_of b.(np.shape) ->
  np.allclose a b = Ok (all2 np.isclose a.(np.data) b.(np.data)).
Proof.
  intros Hs Ha Hb. unfold np.allclose. rewrite <- Hs in *.
  rewrite broadcast_shapes_same, pad_shape_same.
  rewrite !broadcast_data_same by assumption. reflexivity.
Qed.

Lemma all2_against_ones {A : Type} (f : A -> Q) (g : A -> Q) (l : list A) :
  all2 np.isclose (map f l) (map (fun _ => 1%Q) (map g l))
  = forallb (fun r => np.isclose (f r) 1) l.
Proof.
  induction l as [|x l IH]; simpl; [reflexivity | now rewrite IH].
Qed.

Lemma isclose_one (s : Q) : np.isclose s 1 = true <-> within_tolerance s.
Proof.
  unfold np.isclose, within_tolerance. rewrite Qle_bool_iff.
  assert (Ht : (np.atol + np.rtol * Qabs 1 == np.atol + np.rtol)%Q)
    by reflexivity.
  rewrite Ht. reflexivity.
Qed.

Lemma forallb_isclose_one (rs : list (list Q)) :
  forallb (fun r => np.isclose (Qsum r) 1) rs = true
  <-> Forall (fun r => within_tolerance (Qsum r)) rs.
Proof.
  rewrite forallb_forall, Forall_forall.
  split; intros Hall r Hr; apply isclose_one; auto.
Qed.

Lemma Zlist_eqb_eq (l1 l2 : list Z) : Zlist_eqb l1 l2 = true <-> l1 = l2.
Proof.
  unfold Zlist_eqb. destruct (list_eq_dec Z.eq_dec l1 l2); split;
    intros; try assumption; try reflexivity; try discriminate; contradiction.
Qed.

Lemma Zlist_eqb_refl (l : list Z) : Zlist_eqb l l = true.
Proof. apply Zlist_eqb_eq. reflexivity. Qed.

Lemma last_of_nat (s : list nat) :
  last (map Z.of_nat s) 0 = Z.of_nat (last s 0%nat).
Proof.
  induction s as [|n s IH]; [reflexivity|].
  destruct s as [|m s]; [reflexivity|]. exact IH.
Qed.

(** ** [Simplex.contains] on an array of the stored shape *)

Section SimplexContains.
Context `{NumpyRandom}.

Lemma contains_array (self : Simplex.t) (a : np.ndarray) :
  map Z.of_nat a.(np.shape) = self.(Simplex.shape) ->
  last a.(np.shape) 0%nat <> 0%nat ->
  Simplex.contains self (PyArray a)
  = Ok (forallb (fun r => np.isclose (Qsum r) 1) (np.rows a)).
Proof.
  intros Hshape Hdim. unfold Simplex.contains. simpl getattr_shape.
  cbn [bind]. rewrite Hshape, Zlist_eqb_refl.
  unfold np.sum_last, np.getitem_ellipsis_0.
  destruct (np.shape a) as [|n s] eqn:Hs; [contradiction Hdim; reflexivity|].
  apply Nat.eqb_neq in Hdim. rewrite Hdim. cbn [bind].
  rewrite allclose_same_shape; cbn [np.shape np.data np.ones_like].
  - rewrite all2_against_ones. reflexivity.
  - reflexivity.
  - rewrite length_map. unfold np.rows. rewrite Hs. apply chunks_length.
  - rewrite !length_map. unfold np.rows. rewrite Hs. apply chunks_length.
Qed.

Lemma contains_other_shape (self : Simplex.t) (a : np.ndarray) :
  map Z.of_nat a.(np.shape) <> self.(Simplex.shape) ->
  Simplex.contains self (PyArray a) = Ok false.
Proof.
  intros Hshape. unfold Simplex.contains. simpl getattr_shape. cbn [bind].
  destruct (Zlist_eqb _ _) eqn:Heq; [|reflexivity].
  apply Zlist_eqb_eq in Heq. contradiction.
Qed.

Lemma contains_no_shape (self : Simplex.t) (x : pyval) :
  (forall a, x <> PyArray a) ->
  Simplex.contains self x = Raise AttributeError.
Proof.
  intros Hx. destruct x; try reflexivity. exfalso. eapply Hx. reflexivity.
Qed.

End SimplexContains.

(** ** The two arithmetics satisfy the laws of [DtypeArith] *)

Lemma isclose_near_exact (s : Q) :
  (Qabs (s - 1) <= 1 # 100000)%Q -> np.isclose s 1 = true.
Proof.
  intros Hs. apply isclose_one. unfold within_tolerance.
  apply (Qle_trans _ _ _ Hs). unfold np.atol, np.rtol, Qle. simpl. lia.
Qed.

Lemma isclose_far_exact (s : Q) :
  (2 # 100000 <= Qabs (s - 1))%Q -> np.isclose s 1 = false.
Proof.
  intros Hs. destruct (np.isclose s 1) eqn:Hc; [|reflexivity].
  apply isclose_one in Hc. unfold within_tolerance in Hc.
  pose proof (Qle_trans _ _ _ Hs Hc) as Hle.
  unfold np.atol, np.rtol, Qle in Hle. simpl in Hle. lia.
Qed.

(** A multiple of [1/2] lies on every grid of even denominator. *)
Lemma round_to_half (d : positive) (q : Q) (k : Z) :
  (q == k # 2)%Q -> (round_to (xO d) q == q)%Q.
Proof.
  intros Hq. unfold Qeq in Hq. cbn [Qnum Qden] in Hq.
  unfold round_to.
  assert (Ht : Qnum q * Zpos (xO d) = k * Zpos d * Zpos (Qden q)).
  { rewrite Pos2Z.inj_xO. nia. }
  rewrite Ht, Z.div_mul, Z.mod_mul by discriminate.
  change (2 * 0) with 0. cbn [Z.compare].
  unfold Qeq. cbn [Qnum Qden]. rewrite Pos2Z.inj_xO. nia.
Qed.

Lemma half_plus (a b : Q) :
  (exists k : Z, a == k # 2)%Q -> (exists k : Z, b == k # 2)%Q ->
  (exists k : Z, a + b == k # 2)%Q.
Proof.
  intros [ka Ha] [kb Hb]. exists (ka + kb). rewrite Ha, Hb.
  unfold Qeq, Qplus. cbn [Qnum Qden]. nia.
Qed.

Lemma machine_add_half (dt : np.dtype) (a b : Q) :
  dt <> np.int64 ->
  (exists k : Z, a == k # 2)%Q -> (exists k : Z, b == k # 2)%Q ->
  (machine_add dt a b == a + b)%Q.
Proof.
  intros Hdt Ha Hb. destruct (half_plus a b Ha Hb) as [k Hk].
  destruct dt; [ | | contradiction Hdt; reflexivity];
    unfold machine_add; exact (round_to_half _ _ k Hk).
Qed.

Lemma machine_sum_halves (dt : np.dtype) (r : list Q) :
  dt <> np.int64 ->
  Forall (fun q => exists k : Z, (q == k # 2)%Q /\ -1024 <= k <= 1024) r ->
  (List.length r <= 1024)%nat ->
  (machine_sum dt r == Qsum r)%Q.
Proof.
  intros Hdt Hall _. unfold machine_sum.
  assert (Hgen : forall acc, (exists k : Z, acc == k # 2)%Q ->
                             (fold_left (machine_add dt) r acc
                              == acc + Qsum r)%Q).
  { induction Hall as [|x l (k & Hx & _) _ IH]; intros acc Hacc.
    - simpl. ring.
    - cbn [fold_left]. 
      assert (Hxh : (exists k : Z, x == k # 2)%Q) by (exists k; exact Hx).
      pose proof (machine_add_half dt acc x Hdt Hacc Hxh) as Hadd.
      rewrite IH.
      + rewrite Hadd. unfold Qsum. cbn [fold_right]. ring.
      + destruct (half_plus acc x Hacc Hxh) as [k' Hk'].
        exists k'. rewrite Hadd. exact Hk'. }
  rewrite Hgen.
  - ring.
  - exists 0. reflexivity.
Qed.

(** Exact sums, and the comparison on them. *)
Definition exact_arith : DtypeArith :=
  {| sum_in := fun _ => Qsum;
     isclose_in := fun _ => np.isclose;
     isclose_near := fun _ => isclose_near_exact;
     isclose_far := fun _ => isclose_far_exact;
     sum_of_halves := fun _ r _ _ _ => Qeq_refl (Qsum r) |}.

(** Rounded and wrapped sums. *)
Definition machine_arith : DtypeArith :=
  {| sum_in := machine_sum;
     isclose_in := fun _ => np.isclose;
     isclose_near := fun _ => isclose_near_exact;
     isclose_far := fun _ => isclose_far_exact;
     sum_of_halves := machine_sum_halves |}.

(** ** [InDtype.contains] on an array of the stored shape *)



Section InDtypeContains.
Context {random : NumpyRandom} {arith : DtypeArith}.




End InDtypeContains.

(** In the exact arithmetic, [InDtype.contains] is [Simplex.contains]. *)
Lemma contains_in_exact `{NumpyRandom} (self : Simplex.t) (x : pyval) :
  InDtype.contains (arith := exact_arith) self x = Simplex.contains self x.
Proof. reflexivity. Qed.

(* ================================================================= *)
(** ** [ListBatch] *)

Lemma string_app_assoc (s1 s2 s3 : string) :
  ((s1 ++ s2) ++ s3 = s1 ++ (s2 ++ s3))%string.
Proof.
  induction s1 as [|c s1 IH]; simpl; [reflexivity | now rewrite IH].
Qed.

Lemma substring_of_intro (pre needle post s : string) :
  s = (pre ++ needle ++ post)%string -> substring_of needle s.
Proof. intros Hs. exists pre, post. exact Hs. Qed.

Lemma ListBatch_repr_value {obj : Type} (repr_obj : obj -> string)
      (h : ListBatch.heap obj) (self : ListBatch.t) :
  ListBatch.__repr__ repr_obj h self
  = Ok ("ListBatch(value="
        ++ ListBatch.repr_ref repr_obj h self.(ListBatch.value)
        ++ ", lengths="
        ++ ListBatch.repr_ref repr_obj h self.(ListBatch.lengths)
        ++ ", max_len=" ++ str_int self.(ListBatch.max_len) ++ ")")%string.
Proof. reflexivity. Qed.

(** The batch holds the caller's objects, not copies: what is written
    through the caller's reference afterwards shows in the batch. *)
Lemma ListBatch_shares_lengths {obj : Type} (repr_obj : obj -> string)
      (h : ListBatch.heap obj) (value lengths : ListBatch.ref)
      (max_len : Z) (o : obj) :
  forall h' self,
    ListBatch.__init__ h value lengths max_len = Ok (h', self) ->
    ListBatch.repr_ref repr_obj (ListBatch.update h' lengths o)
                       self.(ListBatch.lengths)
    = repr_obj o.
Proof.
  intros h' self Hinit. inversion Hinit; subst; clear Hinit.
  unfold ListBatch.repr_ref, ListBatch.update; simpl.
  rewrite Nat.eqb_refl. reflexivity.
Qed.

(** [str(n)] is a decimal numeral of [n]: read back, it is [n]. *)
Lemma str_int_denotes (n : Z) :
  option_map Z.of_int (NilZero.int_of_string (str_int n)) = Some n.
Proof.
  unfold str_int. rewrite NilZero.isi.
  - cbn [option_map]. rewrite DecimalZ.of_to. reflexivity.
  - intros Hnil.
    assert (Hz : Z.of_int (Z.to_int n) = 0) by (rewrite Hnil; reflexivity).
    rewrite DecimalZ.of_to in Hz. subst n. discriminate Hnil.
  - intros Hnil.
    assert (Hz : Z.of_int (Z.to_int n) = 0) by (rewrite Hnil; reflexivity).
    rewrite DecimalZ.of_to in Hz. subst n. discriminate Hnil.
Qed.

(** C9. [ListBatch(value, lengths, max_len)], called on the objects [v]
    and [l] of the caller, always returns, leaves the heap as it was and
    keeps the three arguments themselves in the three attributes: the
    attributes denote [v] and [l].  [repr] and [str] are the text
    ["ListBatch(value=V, lengths=L, max_len=M)"] where [V] is the [repr]
    of [v], [L] the [repr] of [l] and [M] the decimal numeral of
    [max_len], which reads back as [max_len]; for [max_len = 5] the text
    ends with ["max_len=5)"] and so contains ["max_len=5"]. *)
Theorem ListBatch_stores_and_formats {obj : Type} (repr_obj : obj -> string)
        (h : ListBatch.heap obj) (value lengths : ListBatch.ref)
        (max_len : Z) (v l : obj) :
  h value = Some v ->
  h lengths = Some l ->
  (exists self digits,
      ListBatch.__init__ h value lengths max_len = Ok (h, self) /\
      self.(ListBatch.value) = value /\
      self.(ListBatch.lengths) = lengths /\
      self.(ListBatch.max_len) = max_len /\
      h self.(ListBatch.value) = Some v /\
      h self.(ListBatch.lengths) = Some l /\
      ListBatch.__repr__ repr_obj h self
      = Ok ("ListBatch(value=" ++ repr_obj v
            ++ ", lengths=" ++ repr_obj l
            ++ ", max_len=" ++ digits ++ ")")%string /\
      digits = NilZero.string_of_int (Z.to_int max_len) /\
      option_map Z.of_int (NilZero.int_of_string digits) = Some max_len /\
      ListBatch.__str__ repr_obj h self = ListBatch.__repr__ repr_obj h self)
  /\
  (exists self5,
      ListBatch.__init__ h value lengths 5 = Ok (h, self5) /\
      ListBatch.__repr__ repr_obj h self5
      = Ok ("ListBatch(value=" ++ repr_obj v
            ++ ", lengths=" ++ repr_obj l ++ ", max_len=5)")%string /\
      ListBatch.__str__ repr_obj h self5
      = Ok ("ListBatch(value=" ++ repr_obj v
            ++ ", lengths=" ++ repr_obj l ++ ", max_len=5)")%string /\
      substring_of "max_len=5"
                   ("ListBatch(value=" ++ repr_obj v
                    ++ ", lengths=" ++ repr_obj l ++ ", max_len=5)")).
Proof.
  intros Hv Hl.
  assert (Hrepr : forall m,
             ListBatch.__repr__ repr_obj h
               {| ListBatch.value := value; ListBatch.lengths := lengths;
                  ListBatch.max_len := m |}
             = Ok ("ListBatch(value=" ++ repr_obj v
                   ++ ", lengths=" ++ repr_obj l
                   ++ ", max_len=" ++ str_int m ++ ")")%string).
  { intros m. rewrite ListBatch_repr_value.
    cbn [ListBatch.value ListBatch.lengths ListBatch.max_len].
    unfold ListBatch.repr_ref. rewrite Hv, Hl. reflexivity. }
  split.
  - eexists; exists (str_int max_len). split; [reflexivity|].
    cbn [ListBatch.value ListBatch.lengths ListBatch.max_len].
    repeat (split; [first [reflexivity | assumption]|]).
    split; [apply Hrepr|]. split; [reflexivity|].
    split; [apply str_int_denotes | reflexivity].
  - eexists. split; [reflexivity|].
    split; [apply Hrepr|]. split; [apply Hrepr|].
    apply (substring_of_intro
             ("ListBatch(value=" ++ repr_obj v
              ++ ", lengths=" ++ repr_obj l ++ ", ")%string
             "max_len=5" ")").
    rewrite !string_app_assoc. reflexivity.
Qed.

(** The scenario of the documentation, with lists of ints as objects. *)
Example ListBatch_scenario :
  let h : ListBatch.heap (list Z) :=
    ListBatch.update (ListBatch.update (fun _ => None) 0%nat [0; 0; 0; 0])
                     1%nat [3; 5] in
  '(h', b) <- ListBatch.__init__ h 0%nat 1%nat 5 ;;
  ListBatch.__str__ str_list h' b
  = Ok "ListBatch(value=[0, 0, 0, 0], lengths=[3, 5], max_len=5)"%string.
Proof. reflexivity. Qed.

(* ================================================================= *)
(** ** [Repeated] *)

Section RepeatedProperties.
Context `{NumpyRandom}.
Variable child : Space.

(** A draw of [randint] that returns lies in the range asked for. *)
Lemma randint_Ok_range (g : rng) (low high n : Z) (g' : rng) :
  randint g low high = Ok (n, g') -> low <= n < high.
Proof.
  intros Hdraw.
  destruct (Z_le_gt_dec high low) as [Hempty|Hlt].
  - rewrite (randint_empty g low high Hempty) in Hdraw. discriminate.
  - destruct (Z_lt_le_dec low (- 2 ^ 63)) as [Hlow|Hlow].
    + rewrite (randint_bounds g low high (or_introl Hlow)) in Hdraw.
      discriminate.
    + destruct (Z_lt_le_dec (2 ^ 63) high) as [Hhigh|Hhigh].
      * rewrite (randint_bounds g low high (or_intror Hhigh)) in Hdraw.
        discriminate.
      * destruct (randint_range g low high) as (n0 & g0 & Hd & Hr);
          try lia.
        rewrite Hd in Hdraw. inversion Hdraw; subst. exact Hr.
Qed.

Lemma draw_length (n : nat) :
  forall (c : sp_state child) vs c',
    Repeated.draw n c = Ok (vs, c') -> List.length vs = n.
Proof.
  induction n as [|n IH]; intros c vs c' Hd; simpl in Hd.
  - inversion Hd; reflexivity.
  - bind_inv Hd as ([v c1] & _ & Hd).
    bind_inv Hd as ([vs' c2] & Hrest & Hd).
    inversion Hd; subst. simpl. f_equal. eapply IH. exact Hrest.
Qed.

(** Every element of a draw is a value that [child_space.sample()]
    returned. *)
Lemma draw_samples (n : nat) :
  forall (c : sp_state child) vs c', Repeated.draw n c = Ok (vs, c') ->
    Forall (fun v => exists c1 c2, sp_sample child c1 = Ok (v, c2)) vs.
Proof.
  induction n as [|n IH]; intros c vs c' Hd; simpl in Hd.
  - inversion Hd; constructor.
  - bind_inv Hd as ([v c1] & Hv & Hd).
    bind_inv Hd as ([vs' c2] & Hrest & Hd).
    inversion Hd; subst. constructor.
    + exists c, c1. exact Hv.
    + eapply IH. exact Hrest.
Qed.


Lemma contains_list (self : Repeated.t child) (l : list pyval) :
  Repeated.contains self (PyList l) = Ok true <->
  Z.of_nat (List.length l) <= self.(Repeated.max_len) /\
  Forall (fun c => sp_contains child c = Ok true) l.
Proof.
  unfold Repeated.contains.
  destruct (Z.leb_spec (Z.of_nat (List.length l)) self.(Repeated.max_len))
    as [Hle|Hgt].
  - rewrite py_all_true. split; [intros Hall; split; assumption|].
    intros [_ Hall]; exact Hall.
  - split; [discriminate|]. intros [Hle _]. lia.
Qed.

Lemma contains_not_list (self : Repeated.t child) (x : pyval) :
  isinstance_list x = false -> Repeated.contains self x = Ok false.
Proof. destruct x; simpl; intros Hx; try reflexivity; discriminate. Qed.


(** C5, as the code has it.  [contains(x)] returns true exactly when [x]
    is a [list] of at most [max_len] elements, each accepted by
    [child_space.contains]; with [max_len >= 1] the empty list is
    accepted; anything that is not a [list] gives false. *)
Theorem Repeated_contains_iff_list (self : Repeated.t child) (x : pyval) :
  (Repeated.contains self x = Ok true <->
   exists l, x = PyList l /\
             Z.of_nat (List.length l) <= self.(Repeated.max_len) /\
             Forall (fun c => sp_contains child c = Ok true) l)
  /\ (1 <= self.(Repeated.max_len) -> Repeated.contains self (PyList []) = Ok true)
  /\ (isinstance_list x = false -> Repeated.contains self x = Ok false).
Proof.
  split; [|split].
  - split.
    + intros Hc. destruct x as [| | | | |l| |];
        try (simpl in Hc; discriminate Hc).
      exists l. split; [reflexivity|]. apply contains_list. exact Hc.
    + intros (l & -> & Hl). apply contains_list. exact Hl.
  - intros Hmax. apply contains_list. split; [simpl; lia | constructor].
  - apply contains_not_list.
Qed.

(** C10. With [max_len < 1] the range of [randint(1, max_len + 1)] is
    empty and [sample()] raises [ValueError]; [contains] accepts the
    empty list when [max_len] is 0. *)
Theorem Repeated_sample_raises_below_1 (self : Repeated.t child) :
  self.(Repeated.max_len) < 1 ->
  Repeated.sample self = Raise ValueError /\
  (self.(Repeated.max_len) = 0 -> Repeated.contains self (PyList []) = Ok true).
Proof.
  intros Hmax. split.
  - unfold Repeated.sample. rewrite randint_empty by lia. reflexivity.
  - intros Hzero. apply contains_list. split; [simpl; lia | constructor].
Qed.

End RepeatedProperties.

(* ================================================================= *)
(** ** [Simplex]: construction and the [concentration] attribute *)

Section SimplexConstruction.
Context `{NumpyRandom}.

(** Without [concentration] the attribute is [[1] * dim]. *)
Lemma init_default (shape : Simplex.shape_arg) (dt : np.dtype)
      (e : rng) :
  accepted_type shape -> shape.(Simplex.items) <> [] ->
  Simplex.__init__ shape None dt e
  = Ok {| Simplex.shape := shape.(Simplex.items);
          Simplex.dtype := dt;
          Simplex.dim := last shape.(Simplex.items) 0;
          Simplex.concentration :=
            Some (repeat 1 (Z.to_nat (last shape.(Simplex.items) 0)));
          Simplex.np_random := e |}.
Proof.
  intros Hty Hne. unfold Simplex.__init__, Simplex.getitem_last.
  unfold accepted_type in Hty. destruct shape as [ty its]; simpl in *.
  destruct its as [|d its]; [congruence|].
  destruct Hty as [-> | ->]; reflexivity.
Qed.

(** With [concentration] the attribute is not set. *)
Lemma init_explicit (shape : Simplex.shape_arg) (c : pyval)
      (dt : np.dtype) (e : rng) (self : Simplex.t) :
  Simplex.__init__ shape (Some c) dt e = Ok self ->
  self.(Simplex.concentration) = None.
Proof.
  unfold Simplex.__init__. intros Hinit.
  bind_inv Hinit as (_ & _ & Hinit).
  bind_inv Hinit as (dim & _ & Hinit).
  bind_inv Hinit as (conc & Hconc & Hinit).
  bind_inv Hconc as (cs & _ & Hconc).
  bind_inv Hconc as (_ & _ & Hconc).
  inversion Hconc; subst. inversion Hinit; subst. reflexivity.
Qed.

(** C1, on the code.  A construction with an explicit [concentration]
    that succeeds leaves the attribute unset, and [sample()], [==] and
    [repr] of the instance raise [AttributeError]. *)
Theorem Simplex_explicit_concentration_unset
        (shape : Simplex.shape_arg) (c : pyval) (dt : np.dtype)
        (e : rng) (self : Simplex.t) :
  Simplex.__init__ shape (Some c) dt e = Ok self ->
  self.(Simplex.concentration) = None /\
  (forall g, Simplex.sample self g = Raise AttributeError) /\
  (forall other, Simplex.__eq__ self other = Raise AttributeError) /\
  Simplex.__repr__ self = Raise AttributeError.
Proof.
  intros Hinit. pose proof (init_explicit _ _ _ _ _ Hinit) as Hnone.
  split; [exact Hnone|].
  unfold Simplex.sample, Simplex.__eq__, Simplex.__repr__.
  rewrite Hnone. repeat split; reflexivity.
Qed.

(** [seed] changes [np_random] and nothing else. *)
Lemma seed_keeps_attributes (self self' : Simplex.t) (sd : option Z)
      (e : rng) :
  Simplex.seed self sd e = Ok self' ->
  self'.(Simplex.shape) = self.(Simplex.shape) /\
  self'.(Simplex.dtype) = self.(Simplex.dtype) /\
  self'.(Simplex.concentration) = self.(Simplex.concentration).
Proof.
  unfold Simplex.seed. intros Hseed.
  bind_inv Hseed as (g & _ & Hseed).
  inversion Hseed; subst. repeat split; reflexivity.
Qed.

(** [sample()] does not read [self.np_random]: what it returns after
    [seed] is what it returned before, for every state of the generator
    of [np.random]. *)
Lemma sample_ignores_seed (self self' : Simplex.t) (sd : option Z)
      (e : rng) :
  Simplex.seed self sd e = Ok self' ->
  forall g, Simplex.sample self' g = Simplex.sample self g.
Proof.
  intros Hseed g. apply seed_keeps_attributes in Hseed.
  destruct Hseed as (Hs & Hd & Hc).
  unfold Simplex.sample. rewrite Hs, Hd, Hc. reflexivity.
Qed.

End SimplexConstruction.

(** The part of C2 that holds: two [Repeated] spaces with the same seed,
    the same [max_len] and children in the same state are in the same
    state, so every sequence of [sample()] calls gives the same values. *)
Lemma Repeated_seed_deterministic `{NumpyRandom} (child : Space)
      (a b a' b' : Repeated.t child) (sd : Z) (e1 e2 : rng) :
  a.(Repeated.max_len) = b.(Repeated.max_len) ->
  a.(Repeated.child_space) = b.(Repeated.child_space) ->
  Repeated.seed a (Some sd) e1 = Ok a' ->
  Repeated.seed b (Some sd) e2 = Ok b' ->
  a' = b' /\ Repeated.sample a' = Repeated.sample b'.
Proof.
  unfold Repeated.seed, RandomState_seed. intros Hm Hc Ha Hb.
  destruct ((0 <=? sd) && (sd <? 2 ^ 32)); [|discriminate Ha].
  cbn [bind] in Ha, Hb. inversion Ha; inversion Hb; subst.
  rewrite Hm, Hc. split; reflexivity.
Qed.

(** Two simplices of shape [(2,)], built and then seeded with 0, on the
    generator [lcg]. *)
Definition seeded_simplex (e1 e2 : Z) : result Simplex.t :=
  s <- Simplex.__init__ (tuple_shape [2]) None np.float32 e1 ;;
  Simplex.seed s (Some 0) e2.

(** C2, on the code, with the generator [lcg] in the place of numpy's.
    Two simplices of shape [(2,)] are seeded with 0 and are then in the
    same state.  The first draw of the one and the following draw of the
    other differ; and with the same seed the first draw is another one
    when the generator of [np.random] is in another state. *)
Theorem Simplex_same_seed_different_samples :
  let first_of_a := {| np.dtype_of := np.float32; np.shape := [2%nat];
                       np.data := [1 # 2; 1 # 2]%Q |} in
  let next_of_b := {| np.dtype_of := np.float32; np.shape := [2%nat];
                      np.data := [4 # 5; 1 # 5]%Q |} in
  let first_of_a' := {| np.dtype_of := np.float32; np.shape := [2%nat];
                        np.data := [2 # 3; 1 # 3]%Q |} in
  seeded_simplex 11 12 = seeded_simplex 13 14 /\
  (a <- seeded_simplex 11 12 ;; Simplex.sample a 0)
  = Ok (first_of_a, 1442695040888963407) /\
  (b <- seeded_simplex 13 14 ;; Simplex.sample b 1442695040888963407)
  = Ok (next_of_b, 1876011003808476466) /\
  (a <- seeded_simplex 11 12 ;; Simplex.sample a 1)
  = Ok (first_of_a', 7806831264735756412) /\
  first_of_a <> next_of_b /\
  first_of_a <> first_of_a'.
Proof.
  cbv zeta. repeat split; try reflexivity; discriminate.
Qed.

(* ================================================================= *)
(** ** [Simplex.contains] and [Repeated.contains] on any value *)

Section Membership.
Context `{NumpyRandom}.

(** C3, as the code has it.  [Repeated.contains] returns false for
    whatever is not a [list] and returns a boolean for a list on whose
    elements [child_space.contains] returns.  [Simplex.contains]
    returns false for an array of another shape and returns a boolean
    for every array when [shape[-1] >= 1]; for a value that has no
    [shape] it raises [AttributeError]. *)
Theorem contains_returns_on_expected_input
        (child : Space) (rep : Repeated.t child) (spx : Simplex.t) :
  (forall x, isinstance_list x = false ->
             Repeated.contains rep x = Ok false) /\
  (forall l, Forall (fun c => returns (sp_contains child c)) l ->
             returns (Repeated.contains rep (PyList l))) /\
  (forall a, map Z.of_nat a.(np.shape) <> spx.(Simplex.shape) ->
             Simplex.contains spx (PyArray a) = Ok false) /\
  (1 <= last spx.(Simplex.shape) 0 ->
   forall a, returns (Simplex.contains spx (PyArray a))) /\
  (forall x, (forall a, x <> PyArray a) ->
             Simplex.contains spx x = Raise AttributeError).
Proof.
  split; [|split; [|split; [|split]]].
  - intros x Hx. apply contains_not_list. exact Hx.
  - intros l Hall. unfold Repeated.contains.
    destruct (Z.of_nat (List.length l) <=? rep.(Repeated.max_len)).
    + apply py_all_returns. exact Hall.
    + eexists; reflexivity.
  - intros a Hs. apply contains_other_shape. exact Hs.
  - intros Hdim a.
    destruct (list_eq_dec Z.eq_dec (map Z.of_nat a.(np.shape))
                          spx.(Simplex.shape)) as [Hs|Hs].
    + rewrite contains_array; try exact Hs.
      * eexists; reflexivity.
      * rewrite <- Hs, last_of_nat in Hdim. lia.
    + rewrite (contains_other_shape _ _ Hs). eexists; reflexivity.
  - intros x Hx. apply contains_no_shape. exact Hx.
Qed.

End Membership.

(** C3 as stated fails: on an [int], and on a list of floats,
    [Simplex.contains] raises; and so does [Repeated.contains] when the
    child is a simplex and an element is an [int]. *)
Lemma Simplex_contains_raises_without_shape :
  (s <- Simplex.__init__ (tuple_shape [2]) None np.float32 0 ;;
   Simplex.contains s (PyInt 5)) = Raise AttributeError /\
  (s <- Simplex.__init__ (tuple_shape [2]) None np.float32 0 ;;
   Simplex.contains s (PyList [PyFloat (1 # 2); PyFloat (1 # 2)]))
  = Raise AttributeError /\
  (s <- Simplex.__init__ (tuple_shape [2]) None np.float32 0 ;;
   Repeated.contains (Repeated.__init__ (child := Simplex.as_space s) 0 3 0)
                     (PyList [PyInt 5]))
  = Raise AttributeError.
Proof. repeat split; reflexivity. Qed.

(* ================================================================= *)
(** ** [Simplex.contains] in the arithmetic of the dtype *)

Section SimplexMembership.
Context {random : NumpyRandom} {arith : DtypeArith}.


End SimplexMembership.


(* ================================================================= *)
(** ** [Simplex.sample] *)

Lemma of_nat_to_nat_list (l : list Z) :
  Forall (fun n => 0 <= n) l -> map Z.of_nat (map Z.to_nat l) = l.
Proof.
  induction 1 as [|n l Hn _ IH]; simpl; [reflexivity|].
  rewrite IH, Z2Nat.id by exact Hn. reflexivity.
Qed.

Lemma Forall_removelast {A : Type} (P : A -> Prop) (l : list A) :
  Forall P l -> Forall P (removelast l).
Proof.
  induction 1 as [|x l Hx Hl IH]; simpl; [constructor|].
  destruct l; [constructor | constructor; assumption].
Qed.

Lemma sum_one_within_tolerance (s : Q) :
  (s == 1)%Q -> within_tolerance s.
Proof.
  intros Hs. unfold within_tolerance. rewrite Hs.
  vm_compute. discriminate.
Qed.

Lemma rows_astype (a : np.ndarray) (dt : np.dtype) :
  dt <> np.int64 -> np.rows (np.astype a dt) = np.rows a.
Proof. intros Hdt. destruct dt; [reflexivity | reflexivity | congruence]. Qed.

Lemma data_astype (a : np.ndarray) (dt : np.dtype) :
  dt <> np.int64 -> (np.astype a dt).(np.data) = a.(np.data).
Proof. intros Hdt. destruct dt; [reflexivity | reflexivity | congruence]. Qed.

Section SimplexSample.
Context `{NumpyRandom}.

(** C6.  For a shape of non negative ints with [shape[-1] >= 1] and a
    float dtype (the default is [float32]), [Simplex(shape)] is built
    and [sample()] returns an array of exactly that shape and of the
    stored dtype, with entries that are not negative and sums along the
    last axis within the tolerance of 1.  The entries are those of the
    Dirichlet draw with parameters [[1] * dim]: nothing is normalised
    after the draw.  [contains] accepts the sample. *)
Theorem Simplex_sample_on_simplex
        (shape : Simplex.shape_arg) (dt : np.dtype) (e g : rng) :
  accepted_type shape ->
  Forall (fun n => 0 <= n) shape.(Simplex.items) ->
  1 <= last shape.(Simplex.items) 0 ->
  dt <> np.int64 ->
  exists self a g',
    Simplex.__init__ shape None dt e = Ok self /\
    Simplex.sample self g = Ok (a, g') /\
    map Z.of_nat a.(np.shape) = shape.(Simplex.items) /\
    a.(np.dtype_of) = self.(Simplex.dtype) /\
    self.(Simplex.dtype) = dt /\
    np.well_formed a /\
    Forall (fun x => (0 <= x)%Q) a.(np.data) /\
    Forall (fun r => within_tolerance (Qsum r)) (np.rows a) /\
    (exists raw,
        dirichlet g
          (map inject_Z
               (repeat 1 (Z.to_nat (last shape.(Simplex.items) 0))))
          (removelast shape.(Simplex.items)) = Ok (raw, g') /\
        a = np.astype raw dt /\
        a.(np.data) = raw.(np.data)) /\
    Simplex.contains self (PyArray a) = Ok true.
Proof.
  intros Hty Hnonneg Hdim Hdt.
  set (its := shape.(Simplex.items)) in *.
  set (dim := last its 0) in *.
  assert (Hne : its <> []).
  { intros Hnil. unfold dim in Hdim. rewrite Hnil in Hdim.
    simpl in Hdim. lia. }
  set (alpha := map inject_Z (repeat 1 (Z.to_nat dim))).
  assert (Hlen : List.length alpha = Z.to_nat dim).
  { unfold alpha. rewrite length_map, repeat_length. reflexivity. }
  assert (Halpha : alpha <> []).
  { intros Hnil. rewrite Hnil in Hlen. simpl in Hlen. lia. }
  assert (Hpos : Forall (fun x => (0 < x)%Q) alpha).
  { unfold alpha. apply Forall_map. apply Forall_repeat. reflexivity. }
  destruct (dirichlet_support g alpha (removelast its) Halpha Hpos
                              (Forall_removelast _ _ Hnonneg))
    as (raw & g' & Hdraw & Hraw_dt & Hraw_shape & Hraw_wf & Hraw_pos
        & Hraw_sum).
  assert (Hshape : map Z.of_nat raw.(np.shape) = its).
  { rewrite Hraw_shape, map_app. simpl.
    rewrite of_nat_to_nat_list by (apply Forall_removelast; exact Hnonneg).
    rewrite Hlen, Z2Nat.id by lia.
    symmetry. apply app_removelast_last. exact Hne. }
  assert (Hrows : Forall (fun r => within_tolerance (Qsum r))
                         (np.rows (np.astype raw dt))).
  { rewrite rows_astype by exact Hdt.
    eapply Forall_impl; [|exact Hraw_sum].
    intros r Hr. apply sum_one_within_tolerance. exact Hr. }
  eexists; exists (np.astype raw dt), g'.
  split; [apply init_default; assumption|].
  split.
  { unfold Simplex.sample. cbn [Simplex.concentration getattr bind
                               Simplex.shape Simplex.dtype].
    fold its dim alpha. rewrite Hdraw. reflexivity. }
  split; [exact Hshape|].
  split; [reflexivity|]. split; [reflexivity|].
  split.
  { destruct Hraw_wf as [Hwf _]. split.
    - rewrite data_astype by exact Hdt. exact Hwf.
    - intros Hint. simpl in Hint. congruence. }
  split; [rewrite data_astype by exact Hdt; exact Hraw_pos|].
  split; [exact Hrows|].
  split.
  { exists raw. split; [exact Hdraw|].
    split; [reflexivity | apply data_astype; exact Hdt]. }
  rewrite contains_array.
  - f_equal. apply forallb_isclose_one. exact Hrows.
  - exact Hshape.
  - cbn [np.astype np.shape]. intros Hzero.
    assert (Hl : last (map Z.of_nat raw.(np.shape)) 0 = 0)
      by (rewrite last_of_nat, Hzero; reflexivity).
    rewrite Hshape in Hl. fold dim in Hl. lia.
Qed.

End SimplexSample.

(* ================================================================= *)
(** ** [to_jsonable] and [from_jsonable] *)

Lemma listed_shape_no_zero (s : list nat) :
  ~ In 0%nat s -> listed_shape s = s.
Proof.
  induction s as [|n s IH]; simpl; intros Hz; [reflexivity|].
  destruct (Nat.eqb_spec n 0) as [->|Hn]; [exfalso; auto|].
  rewrite IH by auto. reflexivity.
Qed.

Lemma asarray_PList (l : list np.nested) :
  np.asarray (np.PList l) = (subs <- mapM np.asarray l ;; np.stack subs).
Proof.
  cbn [np.asarray]. f_equal.
  induction l as [|x l IH]; [reflexivity|].
  cbn [mapM]. rewrite <- IH. reflexivity.
Qed.

Lemma fold_promote_same (dt : np.dtype) (l : list np.dtype) :
  Forall (fun d => d = dt) l -> fold_left np.promote l dt = dt.
Proof.
  induction 1 as [|d l -> _ IH]; simpl; [reflexivity|].
  replace (np.promote dt dt) with dt by (destruct dt; reflexivity).
  exact IH.
Qed.

Lemma fold_promote_int64 (l : list np.dtype) :
  forall dt, fold_left np.promote l dt = np.int64 ->
             dt = np.int64 /\ Forall (fun d => d = np.int64) l.
Proof.
  induction l as [|d l IH]; simpl; intros dt Hf.
  - split; [exact Hf | constructor].
  - apply IH in Hf. destruct Hf as [Hp Hl].
    destruct dt, d; try discriminate Hp. split; [reflexivity|].
    constructor; [reflexivity | exact Hl].
Qed.

Lemma shape_eqb_refl (s : list nat) : np.shape_eqb s s = true.
Proof.
  unfold np.shape_eqb. destruct (list_eq_dec Nat.eq_dec s s); congruence.
Qed.

(** Stacking blocks of one dtype and one shape. *)
Lemma stack_blocks (dt : np.dtype) (sh : list nat) (cs : list (list Q)) :
  cs <> [] ->
  np.stack (map (fun c => {| np.dtype_of := dt; np.shape := sh;
                             np.data := c |}) cs)
  = Ok {| np.dtype_of := dt;
          np.shape := List.length cs :: sh;
          np.data := concat cs |}.
Proof.
  intros Hne. destruct cs as [|c cs]; [congruence|].
  unfold np.stack. cbn [map np.shape].
  replace (forallb _ _) with true.
  - f_equal. f_equal.
    + cbn [np.dtype_of]. apply fold_promote_same.
      apply Forall_map. apply Forall_map.
      apply Forall_forall. reflexivity.
    + cbn [List.length]. rewrite !length_map. reflexivity.
    + cbn [map concat np.data]. f_equal. rewrite map_map. cbn [np.data].
      rewrite map_id. reflexivity.
  - symmetry. apply forallb_forall. intros b Hb.
    apply in_map_iff in Hb. destruct Hb as (c' & <- & _).
    apply shape_eqb_refl.
Qed.

Lemma Forall_firstn {A : Type} (P : A -> Prop) (k : nat) (d : list A) :
  Forall P d -> Forall P (firstn k d).
Proof.
  intros Hd. revert k. induction Hd as [|x d Hx _ IH]; intros [|k]; simpl;
    constructor; auto.
Qed.

Lemma Forall_skipn {A : Type} (P : A -> Prop) (k : nat) (d : list A) :
  Forall P d -> Forall P (skipn k d).
Proof.
  intros Hd. revert k. induction Hd as [|x d Hx Hd IH]; intros [|k]; simpl;
    try constructor; auto.
Qed.

Lemma chunks_Forall {A : Type} (P : A -> Prop) (n k : nat) (d : list A) :
  Forall P d -> Forall (Forall P) (chunks n k d).
Proof.
  revert d; induction n as [|n IH]; intros d Hd; simpl; constructor.
  - apply Forall_firstn. exact Hd.
  - apply IH. apply Forall_skipn. exact Hd.
Qed.

(** [np.asarray(x.tolist())] keeps the entries of [x]. *)
Lemma asarray_tolist (dt : np.dtype) (s : list nat) :
  forall d,
    List.length d = np.size_of s ->
    (dt = np.int64 -> Forall np.integral d) ->
    np.asarray (np.tolist_aux dt s d)
    = Ok {| np.dtype_of := listed_dtype dt s;
            np.shape := listed_shape s;
            np.data := d |}.
Proof.
  induction s as [|n s IH]; intros d Hlen Hint.
  - destruct d as [|q [|q' d]]; try discriminate Hlen.
    cbn [np.tolist_aux hd listed_dtype listed_shape].
    destruct dt; try reflexivity.
    cbn [np.item np.asarray].
    specialize (Hint eq_refl). inversion Hint as [|? ? Hq _]; subst.
    unfold np.integral in Hq. rewrite <- Hq. reflexivity.
  - assert (Hlen' : List.length d = (n * np.size_of s)%nat) by exact Hlen.
    cbn [np.tolist_aux]. rewrite asarray_PList, mapM_map.
    rewrite (mapM_Ok _ (fun c => {| np.dtype_of := listed_dtype dt s;
                                    np.shape := listed_shape s;
                                    np.data := c |})).
    + cbn [bind listed_dtype listed_shape].
      destruct (Nat.eqb_spec n 0) as [->|Hn].
      * destruct d; [reflexivity | discriminate Hlen'].
      * rewrite stack_blocks.
        -- rewrite chunks_length, concat_chunks by exact Hlen'. reflexivity.
        -- destruct n; [congruence | discriminate].
    + pose proof (chunks_block_length n _ d Hlen') as Hblocks.
      assert (Hints : Forall (fun c => dt = np.int64 -> Forall np.integral c)
                             (chunks n (np.size_of s) d)).
      { apply Forall_forall. intros c Hc Hdt.
        pose proof (chunks_Forall _ n (np.size_of s) d (Hint Hdt)) as Hall.
        rewrite Forall_forall in Hall. apply Hall. exact Hc. }
      rewrite Forall_forall in *. intros c Hc.
      apply IH; [apply Hblocks | apply Hints]; exact Hc.
Qed.

Section RoundTrip.
Context `{NumpyRandom}.

(** The round trip on arrays of one shape [s]: the entries come back
    as they were, as [float64] (or [int64]) arrays, and the shape too
    unless it has an axis of length 0. *)
Lemma round_trip_one_shape (self : Simplex.t) (xs : list np.ndarray)
      (s : list nat) :
  Forall (fun a => np.well_formed a /\ a.(np.shape) = s) xs ->
  exists j ys,
    Simplex.to_jsonable self xs = Ok j /\
    Simplex.from_jsonable self j = Ok ys /\
    map np.data ys = map np.data xs /\
    (~ In 0%nat s -> map np.shape ys = map np.shape xs).
Proof.
  intros Hxs. unfold Simplex.to_jsonable, Simplex.from_jsonable.
  destruct xs as [|a l].
  { exists (np.PList []), []. repeat split; reflexivity. }
  set (xs := a :: l) in *.
  assert (Ha : a.(np.shape) = s)
    by (inversion Hxs as [|? ? [_ Hs] _]; exact Hs).
  set (dtS := fold_left np.promote (map np.dtype_of l) a.(np.dtype_of)).
  assert (Hstack : np.stack xs
                   = Ok {| np.dtype_of := dtS;
                           np.shape := List.length xs :: s;
                           np.data := concat (map np.data xs) |}).
  { unfold np.stack, xs. replace (forallb _ l) with true.
    - rewrite Ha. reflexivity.
    - symmetry. apply forallb_forall. intros b Hb.
      pose proof (Forall_inv_tail Hxs) as Hl.
      rewrite Forall_forall in Hl. destruct (Hl b Hb) as [_ Hs].
      rewrite Hs, Ha. apply shape_eqb_refl. }
  assert (Hlens : Forall (fun d => List.length d = np.size_of s)
                         (map np.data xs)).
  { apply Forall_map. eapply Forall_impl; [|exact Hxs].
    intros b [[Hlen _] Hs]. rewrite <- Hs. exact Hlen. }
  assert (Hints : dtS = np.int64 ->
                  Forall (fun d => Forall np.integral d) (map np.data xs)).
  { intros Hdt. apply fold_promote_int64 in Hdt.
    destruct Hdt as [Hdta Hdtl]. apply Forall_map.
    assert (Hall : Forall (fun b => b.(np.dtype_of) = np.int64) xs).
    { constructor; [exact Hdta|].
      rewrite Forall_forall in *. intros b Hb. apply Hdtl.
      apply in_map. exact Hb. }
    rewrite Forall_forall in *. intros b Hb.
    destruct (Hxs b Hb) as [[_ Hint] _]. apply Hint. apply Hall. exact Hb. }
  set (back := fun d => {| np.dtype_of := listed_dtype dtS s;
                           np.shape := listed_shape s;
                           np.data := d |}).
  exists (np.PList (map (np.tolist_aux dtS s) (map np.data xs))),
         (map back (map np.data xs)).
  split.
  { rewrite Hstack. cbn [bind]. unfold np.tolist.
    cbn [np.dtype_of np.shape np.data np.tolist_aux].
    rewrite <- (length_map np.data xs) at 1.
    rewrite (chunks_concat _ _ Hlens). reflexivity. }
  split.
  { rewrite mapM_map. apply mapM_Ok.
    rewrite Forall_forall. intros d Hd. apply asarray_tolist.
    - rewrite Forall_forall in Hlens. apply Hlens. exact Hd.
    - intros Hdt. specialize (Hints Hdt).
      rewrite Forall_forall in Hints. apply Hints. exact Hd. }
  split.
  { rewrite map_map. cbn [back np.data]. apply map_id. }
  intros Hz. rewrite map_map. cbn [back np.shape].
  rewrite listed_shape_no_zero by exact Hz.
  rewrite map_map. apply map_ext_in. intros b Hb.
  rewrite Forall_forall in Hxs. destruct (Hxs b Hb) as [_ Hs].
  symmetry. exact Hs.
Qed.

(** C8.  For a sequence [xs] of arrays that [contains] accepts,
    [to_jsonable] returns, [from_jsonable] returns on its result, and
    the arrays that come back have the entries of [xs], entry for entry
    (and the shape of [xs] when the shape has no axis of length 0). *)
Theorem jsonable_round_trip (self : Simplex.t) (xs : list np.ndarray) :
  Forall (fun a => np.well_formed a /\
                   Simplex.contains self (PyArray a) = Ok true) xs ->
  exists j ys,
    Simplex.to_jsonable self xs = Ok j /\
    Simplex.from_jsonable self j = Ok ys /\
    List.length ys = List.length xs /\
    map np.data ys = map np.data xs /\
    (~ In 0 self.(Simplex.shape) -> map np.shape ys = map np.shape xs).
Proof.
  intros Hxs.
  assert (Hof : Forall (fun a => map Z.of_nat a.(np.shape)
                                 = self.(Simplex.shape)) xs).
  { eapply Forall_impl; [|exact Hxs]. intros a [_ Hc].
    destruct (list_eq_dec Z.eq_dec (map Z.of_nat a.(np.shape))
                          self.(Simplex.shape)) as [Hs|Hs];
      [exact Hs|].
    rewrite (contains_other_shape _ _ Hs) in Hc. discriminate Hc. }
  assert (Hshape : Forall (fun a => np.well_formed a /\
                                    a.(np.shape)
                                    = map Z.to_nat self.(Simplex.shape))
                          xs).
  { rewrite Forall_forall in *. intros a Ha.
    split; [apply Hxs; exact Ha|].
    rewrite <- (Hof a Ha), map_map. symmetry.
    rewrite <- (map_id a.(np.shape)) at 2.
    apply map_ext. intros n. apply Nat2Z.id. }
  destruct (round_trip_one_shape self xs _ Hshape)
    as (j & ys & Hto & Hfrom & Hdata & Hsh).
  exists j, ys. split; [exact Hto|]. split; [exact Hfrom|].
  assert (Hlen : List.length ys = List.length xs).
  { rewrite <- (length_map np.data ys), Hdata. apply length_map. }
  split; [exact Hlen|]. split; [exact Hdata|].
  intros Hz. destruct xs as [|a l].
  { destruct ys; [reflexivity | discriminate Hlen]. }
  apply Hsh. intros Hin. apply Hz.
  pose proof (Forall_inv Hof) as Ha. cbn beta in Ha.
  rewrite <- Ha in *. rewrite map_map in Hin.
  apply in_map_iff in Hin. destruct Hin as (n & Hn & Hin).
  rewrite Nat2Z.id in Hn. subst n.
  change 0 with (Z.of_nat 0). apply in_map. exact Hin.
Qed.

End RoundTrip.

(* ================================================================= *)
(** ** The theorems at concrete spaces, on the generator [lcg] *)

(** [Discrete(n)] accepts its samples, and its [sample()] returns for
    [0 < n <= 2 ^ 63]. *)
Lemma Discrete_sample_accepted `{NumpyRandom} (n : Z) :
  forall c v c',
    sp_sample (Discrete n) c = Ok (v, c') ->
    sp_contains (Discrete n) v = Ok true.
Proof.
  intros c v c' Hs. simpl in Hs.
  bind_inv Hs as ([k g] & Hk & Hs).
  inversion Hs; subst. apply randint_Ok_range in Hk. simpl.
  f_equal. apply andb_true_iff. split; [apply Z.leb_le | apply Z.ltb_lt]; lia.
Qed.


(** A list space of at most 4 elements of [Discrete(5)], and one of
    none. *)
Definition repeated_4 : Repeated.t (Discrete 5) :=
  Repeated.__init__ (child := Discrete 5) 3 4 11.

Definition repeated_0 : Repeated.t (Discrete 5) :=
  Repeated.__init__ (child := Discrete 5) 3 0 11.


Lemma Repeated_contains_iff_list_witness :
  1 <= repeated_4.(Repeated.max_len) /\
  Repeated.contains repeated_4 (PyList []) = Ok true /\
  Repeated.contains repeated_4 (PyTuple []) = Ok false.
Proof.
  assert (Hmax : 1 <= repeated_4.(Repeated.max_len)) by (simpl; lia).
  split; [exact Hmax|].
  destruct (Repeated_contains_iff_list (H := lcg) (Discrete 5) repeated_4 (PyTuple []))
    as (_ & Hempty & Hother).
  split; [apply Hempty; exact Hmax | apply Hother; reflexivity].
Defined.

Lemma Repeated_sample_raises_below_1_witness :
  repeated_0.(Repeated.max_len) < 1 /\
  Repeated.sample repeated_0 = Raise ValueError /\
  Repeated.contains repeated_0 (PyList []) = Ok true.
Proof.
  assert (Hmax : repeated_0.(Repeated.max_len) < 1) by (simpl; lia).
  split; [exact Hmax|].
  destruct (Repeated_sample_raises_below_1 (H := lcg) (Discrete 5) repeated_0 Hmax)
    as [Hraise Hempty].
  split; [exact Hraise | apply Hempty; reflexivity].
Defined.

Lemma Simplex_explicit_concentration_unset_witness :
  exists self : Simplex.t,
    Simplex.__init__ (tuple_shape [2; 3]) (Some (PyArray ones_2))
                     np.float32 0 = Ok self /\
    self.(Simplex.concentration) = None /\
    Simplex.sample self 0 = Raise AttributeError /\
    Simplex.__eq__ self self = Raise AttributeError.
Proof.
  eexists. split; [reflexivity|].
  destruct (Simplex_explicit_concentration_unset (H := lcg)
              (tuple_shape [2; 3]) (PyArray ones_2) np.float32 0 _ eq_refl)
    as (Hnone & Hsample & Heq & _).
  split; [exact Hnone|]. split; [apply Hsample | apply Heq].
Defined.

Lemma Simplex_sample_on_simplex_witness :
  accepted_type (tuple_shape [2; 3]) /\
  Forall (fun n => 0 <= n) [2; 3] /\
  1 <= last [2; 3] 0 /\
  np.float32 <> np.int64 /\
  exists (self : Simplex.t) a g',
    Simplex.__init__ (tuple_shape [2; 3]) None np.float32 0 = Ok self /\
    Simplex.sample self 0 = Ok (a, g') /\
    map Z.of_nat a.(np.shape) = [2; 3] /\
    a.(np.dtype_of) = np.float32 /\
    Forall (fun x => (0 <= x)%Q) a.(np.data) /\
    Forall (fun r => within_tolerance (Qsum r)) (np.rows a) /\
    Simplex.contains self (PyArray a) = Ok true.
Proof.
  assert (Hty : accepted_type (tuple_shape [2; 3])) by (left; reflexivity).
  assert (Hnn : Forall (fun n => 0 <= n) [2; 3])
    by (repeat constructor; lia).
  assert (Hdim : 1 <= last [2; 3] 0) by (simpl; lia).
  assert (Hdt : np.float32 <> np.int64) by discriminate.
  repeat (split; [assumption|]).
  destruct (Simplex_sample_on_simplex (H := lcg) (tuple_shape [2; 3]) np.float32 0 0
                                      Hty Hnn Hdim Hdt)
    as (self & a & g' & Hinit & Hsample & Hshape & Hdtype & Hself & _
        & Hpos & Hsum & _ & Hcontains).
  exists self, a, g'. repeat split; try assumption.
  rewrite Hdtype. exact Hself.
Defined.

(** A simplex of shape [(2,)]. *)
Definition simplex_2 : Simplex.t :=
  {| Simplex.shape := [2];
     Simplex.dtype := np.float32;
     Simplex.dim := 2;
     Simplex.concentration := Some [1; 1];
     Simplex.np_random := 0 |}.

(** A simplex of shape [(5,)] for [int64] arrays. *)
Definition simplex_5 : Simplex.t :=
  {| Simplex.shape := [5];
     Simplex.dtype := np.int64;
     Simplex.dim := 5;
     Simplex.concentration := Some [1; 1; 1; 1; 1];
     Simplex.np_random := 0 |}.

(** What [contains] answers follows the arithmetic: the rounded
    [float32] sum of [rounds_away] is [1 + 84 * 2^-23], outside the
    tolerance that the exact sum [1 + 167 * 2^-24] is within, and the
    [int64] sum of [wraps_to_1] is 1 where the exact sum is
    [2^64 + 1]. *)
Example contains_follows_the_arithmetic :
  sum_in (DtypeArith := exact_arith) np.float32 rounds_away.(np.data)
  = ((1 # 2) + ((8388775 # 16777216) + 0))%Q /\
  sum_in (DtypeArith := machine_arith) np.float32 rounds_away.(np.data)
  = (8388692 # 8388608)%Q /\
  InDtype.contains (arith := exact_arith) simplex_2 (PyArray rounds_away)
  = Ok true /\
  InDtype.contains (arith := machine_arith) simplex_2 (PyArray rounds_away)
  = Ok false /\
  sum_in (DtypeArith := machine_arith) np.int64 wraps_to_1.(np.data) = 1%Q /\
  InDtype.contains (arith := exact_arith) simplex_5 (PyArray wraps_to_1)
  = Ok false /\
  InDtype.contains (arith := machine_arith) simplex_5 (PyArray wraps_to_1)
  = Ok true.
Proof. repeat split; reflexivity. Qed.


Lemma contains_returns_on_expected_input_witness :
  Repeated.contains repeated_4 (PyInt 5) = Ok false /\
  returns (Repeated.contains repeated_4 (PyList [PyInt 7])) /\
  returns (Simplex.contains simplex_2 (PyArray ones_2)) /\
  Simplex.contains simplex_2 (PyInt 5) = Raise AttributeError.
Proof.
  destruct (contains_returns_on_expected_input (H := lcg) (Discrete 5) repeated_4
                                               simplex_2)
    as (Hnot_list & Hlist & _ & Harray & Hno_shape).
  split; [apply Hnot_list; reflexivity|].
  split.
  - apply Hlist. repeat constructor. eexists; reflexivity.
  - split; [apply Harray; simpl; lia|].
    apply Hno_shape. intros a Ha. discriminate Ha.
Defined.

Lemma jsonable_round_trip_witness :
  Forall (fun a => np.well_formed a /\
                   Simplex.contains simplex_2 (PyArray a) = Ok true)
         [half_half; quarter_rest] /\
  exists j ys,
    Simplex.to_jsonable simplex_2 [half_half; quarter_rest] = Ok j /\
    Simplex.from_jsonable simplex_2 j = Ok ys /\
    map np.data ys = map np.data [half_half; quarter_rest].
Proof.
  assert (Hxs : Forall (fun a => np.well_formed a /\
                                 Simplex.contains simplex_2 (PyArray a)
                                 = Ok true)
                       [half_half; quarter_rest]).
  { constructor; [|constructor; [|constructor]];
      (split; [split; [reflexivity | intros Hdt; discriminate Hdt]
              | reflexivity]). }
  split; [exact Hxs|].
  destruct (jsonable_round_trip (H := lcg) simplex_2 _ Hxs)
    as (j & ys & Hto & Hfrom & _ & Hdata & _).
  exists j, ys. repeat split; assumption.
Defined.

(** The heap of the scenario: the padded values at reference 0, the
    lengths at reference 1. *)
Definition scenario_heap : ListBatch.heap (list Z) :=
  ListBatch.update (ListBatch.update (fun _ => None) 0%nat [0; 0; 0; 0])
                   1%nat [3; 5].

Lemma ListBatch_stores_and_formats_witness :
  scenario_heap 0%nat = Some [0; 0; 0; 0] /\
  scenario_heap 1%nat = Some [3; 5] /\
  exists self,
    ListBatch.__init__ scenario_heap 0%nat 1%nat 5 = Ok (scenario_heap, self) /\
    scenario_heap self.(ListBatch.lengths) = Some [3; 5] /\
    ListBatch.__str__ str_list scenario_heap self
    = Ok "ListBatch(value=[0, 0, 0, 0], lengths=[3, 5], max_len=5)"%string.
Proof.
  assert (Hv : scenario_heap 0%nat = Some [0; 0; 0; 0]) by reflexivity.
  assert (Hl : scenario_heap 1%nat = Some [3; 5]) by reflexivity.
  split; [exact Hv|]. split; [exact Hl|].
  destruct (ListBatch_stores_and_formats str_list scenario_heap 0%nat 1%nat 5
                                         [0; 0; 0; 0] [3; 5] Hv Hl)
    as [(self & digits & Hinit & _ & _ & _ & _ & Hlengths & _) (self5 & Hinit5 & _ & Hstr & _)].
  exists self5. split; [exact Hinit5|].
  rewrite Hinit in Hinit5. injection Hinit5 as <-.
  split; [exact Hlengths | exact Hstr].
Defined.

(* ================================================================= *)
(** ** [Repeated.contains] and the sequence types *)

(** C5 as stated fails on the sequences that are not lists: a tuple of
    two elements of the child space, the empty tuple and the empty string
    meet the condition, and [contains] returns false. *)
Lemma Repeated_contains_rejects_tuple :
  (sequence_condition (Discrete 5) repeated_4.(Repeated.max_len)
                      (PyTuple [PyInt 1; PyInt 2]) /\
   Repeated.contains repeated_4 (PyTuple [PyInt 1; PyInt 2]) = Ok false) /\
  (sequence_condition (Discrete 5) repeated_4.(Repeated.max_len)
                      (PyTuple []) /\
   Repeated.contains repeated_4 (PyTuple []) = Ok false) /\
  (sequence_condition (Discrete 5) repeated_4.(Repeated.max_len)
                      (PyStr EmptyString) /\
   Repeated.contains repeated_4 (PyStr EmptyString) = Ok false).
Proof.
  repeat split; try reflexivity;
    try (eexists; split; [reflexivity | simpl; lia]);
    repeat constructor.
Qed.

(* ================================================================= *)
(** * Further properties of the two modules *)

(** ** [Repeated.contains]: every outcome *)

(** [all] over a generator stops at the first element on which the test
    does not return true, and its outcome is the outcome of the test
    there. *)
Lemma py_all_stops {A : Type} (f : A -> result bool) (l : list A)
      (r : result bool) :
  r <> Ok true ->
  (py_all f l = r <->
   exists pre c post,
     l = pre ++ c :: post /\
     Forall (fun c' => f c' = Ok true) pre /\
     f c = r).
Proof.
  intros Hr. induction l as [|c0 l IH]; simpl.
  - split.
    + intros Hall. symmetry in Hall. contradiction.
    + intros (pre & c & post & Hl & _). destruct pre; discriminate Hl.
  - split.
    + intros Hall. destruct (f c0) as [[|]|e] eqn:Hc0; simpl in Hall.
      * apply IH in Hall. destruct Hall as (pre & c & post & -> & Hpre & Hc).
        exists (c0 :: pre), c, post. split; [reflexivity|].
        split; [constructor; assumption | exact Hc].
      * exists [], c0, l. split; [reflexivity|].
        split; [constructor | congruence].
      * exists [], c0, l. split; [reflexivity|].
        split; [constructor | congruence].
    + intros (pre & c & post & Hl & Hpre & Hc).
      destruct pre as [|p pre]; simpl in Hl; injection Hl as Hhead Htail.
      * rewrite Hhead, Hc. destruct r as [[|]|e]; simpl; congruence.
      * rewrite Hhead, (Forall_inv Hpre). simpl.
        apply IH. exists pre, c, post. split; [exact Htail|].
        split; [exact (Forall_inv_tail Hpre) | exact Hc].
Qed.

Section RepeatedOutcomes.
Context `{NumpyRandom}.
Variable child : Space.

(** X1.  [contains(x)] raises exactly when [x] is a list of at most [max_len]
    elements and [child_space.contains] raises on an element before which
    every element was accepted; the exception is the child's. *)
Theorem Repeated_contains_raises_iff (self : Repeated.t child) (x : pyval)
        (e : exn) :
  Repeated.contains self x = Raise e <->
  exists pre c post,
    x = PyList (pre ++ c :: post) /\
    Z.of_nat (List.length (pre ++ c :: post)) <= self.(Repeated.max_len) /\
    Forall (fun c' => sp_contains child c' = Ok true) pre /\
    sp_contains child c = Raise e.
Proof.
  assert (Hr : Raise e <> Ok true) by discriminate.
  split.
  - intros Hc. destruct x as [| | | | |l| |];
      try (simpl in Hc; discriminate Hc).
    unfold Repeated.contains in Hc.
    destruct (Z.leb_spec (Z.of_nat (List.length l)) self.(Repeated.max_len))
      as [Hle|Hgt]; [|discriminate Hc].
    apply (py_all_stops _ _ _ Hr) in Hc.
    destruct Hc as (pre & c & post & -> & Hpre & Hraise).
    exists pre, c, post. repeat split; assumption.
  - intros (pre & c & post & -> & Hle & Hpre & Hraise).
    unfold Repeated.contains.
    destruct (Z.leb_spec (Z.of_nat (List.length (pre ++ c :: post)))
                         self.(Repeated.max_len)) as [_|Hgt]; [|lia].
    apply (py_all_stops _ _ _ Hr). exists pre, c, post.
    repeat split; assumption.
Qed.

(** X2.  [contains(x)] returns false exactly when [x] is not a list, or is a
    list of more than [max_len] elements (the child is then not asked),
    or is a list of at most [max_len] elements with an element that
    [child_space.contains] rejects after accepting all those before. *)
Theorem Repeated_contains_false_iff (self : Repeated.t child) (x : pyval) :
  Repeated.contains self x = Ok false <->
  isinstance_list x = false \/
  (exists l, x = PyList l /\
             self.(Repeated.max_len) < Z.of_nat (List.length l)) \/
  (exists pre c post,
      x = PyList (pre ++ c :: post) /\
      Z.of_nat (List.length (pre ++ c :: post)) <= self.(Repeated.max_len) /\
      Forall (fun c' => sp_contains child c' = Ok true) pre /\
      sp_contains child c = Ok false).
Proof.
  assert (Hr : Ok false <> Ok true) by discriminate.
  split.
  - intros Hc. destruct x as [| | | | |l| |]; try (left; reflexivity).
    right. unfold Repeated.contains in Hc.
    destruct (Z.leb_spec (Z.of_nat (List.length l)) self.(Repeated.max_len))
      as [Hle|Hgt].
    + right. apply (py_all_stops _ _ _ Hr) in Hc.
      destruct Hc as (pre & c & post & -> & Hpre & Hfalse).
      exists pre, c, post. repeat split; assumption.
    + left. exists l. split; [reflexivity | exact Hgt].
  - intros [Hx | [(l & -> & Hgt) | (pre & c & post & -> & Hle & Hpre & Hf)]].
    + apply contains_not_list. exact Hx.
    + unfold Repeated.contains.
      destruct (Z.leb_spec (Z.of_nat (List.length l)) self.(Repeated.max_len));
        [lia | reflexivity].
    + unfold Repeated.contains.
      destruct (Z.leb_spec (Z.of_nat (List.length (pre ++ c :: post)))
                           self.(Repeated.max_len)) as [_|Hgt]; [|lia].
      apply (py_all_stops _ _ _ Hr). exists pre, c, post.
      repeat split; assumption.
Qed.

(** X3.  The accepted lists compose: [l1 + l2] is accepted exactly when [l1]
    and [l2] are and the two together have at most [max_len] elements.
    So what is left of an accepted list after dropping elements at
    either end is accepted. *)
Theorem Repeated_contains_concatenation (self : Repeated.t child)
        (l1 l2 : list pyval) :
  Repeated.contains self (PyList (l1 ++ l2)) = Ok true <->
  Repeated.contains self (PyList l1) = Ok true /\
  Repeated.contains self (PyList l2) = Ok true /\
  Z.of_nat (List.length l1) + Z.of_nat (List.length l2)
  <= self.(Repeated.max_len).
Proof.
  rewrite !contains_list, Forall_app, length_app, Nat2Z.inj_add.
  split.
  - intros (Hlen & H1 & H2). repeat split; try assumption; lia.
  - intros ((_ & H1) & (_ & H2) & Hlen). repeat split; assumption.
Qed.

(** X4.  At least one element is drawn: with [max_len] from 1 up to the bound
    of [randint], an exception of [child_space.sample()] in the current
    state of the child is the outcome of [sample()]. *)
Theorem Repeated_sample_raises_with_child (self : Repeated.t child)
        (e : exn) :
  1 <= self.(Repeated.max_len) < 2 ^ 63 ->
  sp_sample child self.(Repeated.child_space) = Raise e ->
  Repeated.sample self = Raise e.
Proof.
  intros Hmax Hchild. unfold Repeated.sample.
  destruct (randint_range self.(Repeated.np_random) 1
                          (self.(Repeated.max_len) + 1))
    as (n & g & Hn & Hrange); try lia.
  rewrite Hn. cbn [bind].
  destruct (Z.to_nat n) as [|k] eqn:Hk; [lia|].
  cbn [Repeated.draw]. rewrite Hchild. reflexivity.
Qed.

End RepeatedOutcomes.

(** ** [Repeated]: a seed fixes the lengths, lists of lists *)

(** What [sample()] returns with [max_len >= 1]: a list of 1 to [max_len]
    values, each returned by [child_space.sample()]. *)
Lemma sample_is_list_of_draws `{NumpyRandom} (child : Space)
      (self self' : Repeated.t child) (x : pyval) :
  1 <= self.(Repeated.max_len) ->
  Repeated.sample self = Ok (x, self') ->
  exists vs,
    x = PyList vs /\
    1 <= Z.of_nat (List.length vs) <= self.(Repeated.max_len) /\
    Forall (fun v => exists c1 c2, sp_sample child c1 = Ok (v, c2)) vs.
Proof.
  intros Hmax Hs. unfold Repeated.sample in Hs.
  bind_inv Hs as ([n g] & Hn & Hs).
  bind_inv Hs as ([vs c] & Hd & Hs).
  inversion Hs; subst; clear Hs.
  apply randint_Ok_range in Hn.
  pose proof (draw_length _ _ _ _ _ Hd) as Hlen.
  exists vs. split; [reflexivity|]. split; [lia|].
  eapply draw_samples. exact Hd.
Qed.

(** Successive [sample()] calls on two list spaces whose generators are in
    the same state and whose [max_len] is the same: the lists have the
    same lengths, whatever the two children are and return. *)
Lemma draws_same_lengths `{NumpyRandom} (child1 child2 : Space)
      (a : Repeated.t child1) (b : Repeated.t child2) (k : nat) :
  a.(Repeated.max_len) = b.(Repeated.max_len) ->
  forall g c1 c2 xs1 st1 xs2 st2,
    Repeated.draw (child := Repeated_as_space child1 a) k (g, c1)
    = Ok (xs1, st1) ->
    Repeated.draw (child := Repeated_as_space child2 b) k (g, c2)
    = Ok (xs2, st2) ->
    map py_len xs1 = map py_len xs2 /\ fst st1 = fst st2.
Proof.
  intros Hmax. induction k as [|k IH];
    intros g c1 c2 xs1 st1 xs2 st2 H1 H2; simpl in H1, H2.
  - inversion H1; inversion H2; subst. split; reflexivity.
  - bind_inv H1 as ([x1 s1] & Hx1 & H1).
    bind_inv H1 as ([r1 t1] & Hr1 & H1).
    bind_inv H2 as ([x2 s2] & Hx2 & H2).
    bind_inv H2 as ([r2 t2] & Hr2 & H2).
    inversion H1; inversion H2; subst; clear H1 H2.
    bind_inv Hx1 as ([y1 a1] & Hy1 & Hx1).
    bind_inv Hx2 as ([y2 b1] & Hy2 & Hx2).
    inversion Hx1; inversion Hx2; subst; clear Hx1 Hx2.
    unfold Repeated.sample in Hy1, Hy2.
    cbn [Repeated.np_random Repeated.child_space Repeated.max_len fst snd]
      in Hy1, Hy2.
    rewrite <- Hmax in Hy2.
    destruct (randint g 1 (a.(Repeated.max_len) + 1)) as [[n g']|e];
      [|discriminate Hy1].
    cbn [bind] in Hy1, Hy2.
    bind_inv Hy1 as ([vs1 d1] & Hd1 & Hy1).
    bind_inv Hy2 as ([vs2 d2] & Hd2 & Hy2).
    inversion Hy1; inversion Hy2; subst; clear Hy1 Hy2.
    apply draw_length in Hd1. apply draw_length in Hd2.
    cbn [Repeated.np_random Repeated.child_space] in Hr1, Hr2.
    destruct (IH _ _ _ _ _ _ _ Hr1 Hr2) as [Hlens Hgen].
    split; [|exact Hgen].
    cbn [map py_len]. rewrite Hd1, Hd2, Hlens. reflexivity.
Qed.

(** X5.  [seed] does not seed the child.  After [seed(n)] with the same [n] on
    two list spaces with the same [max_len], any number of successive
    [sample()] calls returns lists of the same lengths on both, and
    leaves the two generators in the same state, whatever the children
    and their states are; the elements are the children's. *)
Theorem Repeated_seed_fixes_lengths `{NumpyRandom} (child1 child2 : Space)
        (a a' : Repeated.t child1) (b b' : Repeated.t child2)
        (n : Z) (e1 e2 : rng) (k : nat)
        (xs1 : list pyval) (st1 : rng * sp_state child1)
        (xs2 : list pyval) (st2 : rng * sp_state child2) :
  a.(Repeated.max_len) = b.(Repeated.max_len) ->
  Repeated.seed a (Some n) e1 = Ok a' ->
  Repeated.seed b (Some n) e2 = Ok b' ->
  Repeated.draw (child := Repeated_as_space child1 a') k
                (a'.(Repeated.np_random), a'.(Repeated.child_space))
  = Ok (xs1, st1) ->
  Repeated.draw (child := Repeated_as_space child2 b') k
                (b'.(Repeated.np_random), b'.(Repeated.child_space))
  = Ok (xs2, st2) ->
  a'.(Repeated.child_space) = a.(Repeated.child_space) /\
  b'.(Repeated.child_space) = b.(Repeated.child_space) /\
  map py_len xs1 = map py_len xs2 /\
  fst st1 = fst st2.
Proof.
  intros Hmax Ha Hb H1 H2.
  unfold Repeated.seed, RandomState_seed in Ha, Hb.
  destruct ((0 <=? n) && (n <? 2 ^ 32)); [|discriminate Ha].
  cbn [bind] in Ha, Hb. inversion Ha; inversion Hb; subst; clear Ha Hb.
  cbn [Repeated.np_random Repeated.child_space] in *.
  split; [reflexivity|]. split; [reflexivity|].
  eapply draws_same_lengths; [|exact H1|exact H2].
  exact Hmax.
Qed.

(** X6.  Lists of lists.  For a list space whose child is a list space, both
    with [max_len >= 1], over a child that accepts its own samples: a
    value that [sample()] returns is a list of 1 to [max_len] lists, each
    of 1 to the inner [max_len] elements, and [contains] accepts it. *)
Theorem Repeated_of_Repeated_sample_in_space `{NumpyRandom} (child : Space)
        (inner : Repeated.t child)
        (outer outer' : Repeated.t (Repeated_as_space child inner))
        (x : pyval) :
  1 <= inner.(Repeated.max_len) ->
  1 <= outer.(Repeated.max_len) ->
  (forall c v c', sp_sample child c = Ok (v, c') ->
                  sp_contains child v = Ok true) ->
  Repeated.sample outer = Ok (x, outer') ->
  Repeated.contains outer x = Ok true /\
  exists ls,
    x = PyList ls /\
    1 <= Z.of_nat (List.length ls) <= outer.(Repeated.max_len) /\
    Forall (fun y => exists l,
                y = PyList l /\
                1 <= Z.of_nat (List.length l) <= inner.(Repeated.max_len))
           ls.
Proof.
  intros Hinner Houter Hchild Hs.
  destruct (sample_is_list_of_draws _ _ _ _ Houter Hs)
    as (ls & -> & Hlen & Hdraws).
  assert (Hall : Forall (fun y =>
                   Repeated.contains inner y = Ok true /\
                   exists l, y = PyList l /\
                             1 <= Z.of_nat (List.length l)
                             <= inner.(Repeated.max_len)) ls).
  { eapply Forall_impl; [|exact Hdraws].
    intros y (st & st' & Hy). cbn [sp_sample Repeated_as_space] in Hy.
    bind_inv Hy as ([y' s'] & Hy' & Hy). inversion Hy; subst; clear Hy.
    apply sample_is_list_of_draws in Hy'; [|exact Hinner].
    destruct Hy' as (l & -> & Hl & Hels).
    cbn [Repeated.max_len] in Hl.
    split; [|exists l; split; [reflexivity | exact Hl]].
    apply contains_list. split; [lia|].
    eapply Forall_impl; [|exact Hels].
    intros v (c1 & c2 & Hv). eapply Hchild. exact Hv. }
  split.
  - apply contains_list. split; [lia|].
    eapply Forall_impl; [|exact Hall]. intros y [Hy _]. exact Hy.
  - exists ls. split; [reflexivity|]. split; [exact Hlen|].
    eapply Forall_impl; [|exact Hall]. intros y [_ Hy]. exact Hy.
Qed.

(** ** [Simplex.__init__] and [Simplex.contains]: when they raise *)

Section SimplexOutcomes.
Context `{NumpyRandom}.

(** X7.  [Simplex(shape, concentration, dtype)] is built exactly when [shape]
    is a tuple or a list with at least one item and [concentration] is
    either left out or an array whose shape is [shape[:-1]], [shape] then
    being a tuple.  With a list as [shape] no [concentration] gets
    through: its shape is a tuple, and a tuple never equals a list. *)
Theorem Simplex_init_returns_iff (shape : Simplex.shape_arg)
        (concentration : option pyval) (dt : np.dtype) (e : rng) :
  (returns (Simplex.__init__ shape concentration dt e) <->
   accepted_type shape /\
   shape.(Simplex.items) <> [] /\
   (concentration = None \/
    exists a, concentration = Some (PyArray a) /\
              shape.(Simplex.type_of) = Simplex.ty_tuple /\
              map Z.of_nat a.(np.shape)
              = removelast shape.(Simplex.items)))
  /\
  (shape.(Simplex.type_of) = Simplex.ty_list ->
   shape.(Simplex.items) <> [] ->
   forall a, Simplex.__init__ shape (Some (PyArray a)) dt e
             = Raise AssertionError).
Proof.
  unfold Simplex.__init__, Simplex.getitem_last, Simplex.shape_matches,
    accepted_type, returns.
  destruct shape as [ty its]; cbn [Simplex.type_of Simplex.items].
  split.
  - split.
    + intros [self Hinit].
      assert (Hty : ty = Simplex.ty_tuple \/ ty = Simplex.ty_list).
      { destruct ty; auto. discriminate Hinit. }
      split; [exact Hty|].
      assert (Hok : assert match ty with
                           | Simplex.ty_other => false
                           | _ => true
                           end = Ok tt)
        by (destruct Hty as [-> | ->]; reflexivity).
      rewrite Hok in Hinit. cbn [bind] in Hinit.
      destruct its as [|d its]; [discriminate Hinit|].
      split; [discriminate|].
      destruct concentration as [c|]; [|left; reflexivity].
      right. cbn [bind] in Hinit.
      destruct c; cbn [getattr_shape bind] in Hinit;
        try discriminate Hinit.
      destruct ty; try discriminate Hinit.
      destruct (Zlist_eqb _ _) eqn:Heq; [|discriminate Hinit].
      apply Zlist_eqb_eq in Heq. eexists. repeat split. exact Heq.
    + intros (Hty & Hne & Hconc).
      destruct its as [|d its]; [congruence|].
      destruct Hconc as [-> | (a & -> & Htuple & Hshape)].
      * destruct Hty as [-> | ->]; eexists; reflexivity.
      * rewrite Htuple. cbn [assert bind getattr_shape].
        rewrite Hshape, Zlist_eqb_refl. eexists; reflexivity.
  - intros -> Hne a. destruct its as [|d its]; [congruence|]. reflexivity.
Qed.

(** X8.  On the values of [pyval], that is [None], a [bool], an [int], a
    [float], a [str], a [list], a [tuple] or an array of dtype
    [float32], [float64] or [int64], and for an instance with a shape of
    at least one item, as [__init__] builds them, [contains(x)] raises
    in two cases only: [x] is not an array and so has no [shape]
    ([AttributeError]); [x] is an array of the stored shape and
    [shape[-1]] is 0 ([IndexError] at [x[..., 0]]).  Arrays of other
    dtypes are outside [pyval] and outside this statement. *)
Theorem Simplex_contains_raises_iff (self : Simplex.t) (x : pyval)
        (e : exn) :
  self.(Simplex.shape) <> [] ->
  (Simplex.contains self x = Raise e <->
   ((forall a, x <> PyArray a) /\ e = AttributeError) \/
   (exists a, x = PyArray a /\
              map Z.of_nat a.(np.shape) = self.(Simplex.shape) /\
              last self.(Simplex.shape) 0 = 0 /\
              e = IndexError)).
Proof.
  intros Hne. split.
  - intros Hc. destruct x as [| | | | | | |a];
      try (left; split; [discriminate
                        | unfold Simplex.contains in Hc; simpl in Hc;
                          congruence]).
    right. exists a. split; [reflexivity|].
    destruct (list_eq_dec Z.eq_dec (map Z.of_nat a.(np.shape))
                          self.(Simplex.shape)) as [Hs|Hs].
    + split; [exact Hs|].
      destruct (Nat.eq_dec (last a.(np.shape) 0%nat) 0) as [Hz|Hnz].
      * split; [rewrite <- Hs, last_of_nat, Hz; reflexivity|].
        unfold Simplex.contains in Hc. simpl getattr_shape in Hc.
        cbn [bind] in Hc. rewrite Hs, Zlist_eqb_refl in Hc.
        unfold np.sum_last, np.getitem_ellipsis_0 in Hc.
        destruct (np.shape a) as [|n s] eqn:Ha.
        { simpl in Hs. congruence. }
        rewrite Hz in Hc. cbn [bind Nat.eqb] in Hc. congruence.
      * rewrite (contains_array _ _ Hs Hnz) in Hc. discriminate Hc.
    + rewrite (contains_other_shape _ _ Hs) in Hc. discriminate Hc.
  - intros [[Hx ->] | (a & -> & Hs & Hz & ->)].
    + apply contains_no_shape. exact Hx.
    + unfold Simplex.contains. simpl getattr_shape. cbn [bind].
      rewrite Hs, Zlist_eqb_refl.
      unfold np.sum_last, np.getitem_ellipsis_0.
      destruct (np.shape a) as [|n s] eqn:Ha.
      { simpl in Hs. congruence. }
      assert (Hl : last (n :: s) 0%nat = 0%nat).
      { rewrite <- Hs, last_of_nat in Hz. lia. }
      rewrite Hl. reflexivity.
Qed.

End SimplexOutcomes.

(** ** [Simplex.__eq__] on instances built without [concentration] *)

Lemma concat_singletons {A B : Type} (f : A -> B) (l : list A) :
  concat (map (fun x => [f x]) l) = map f l.
Proof.
  induction l as [|x l IH]; simpl; [reflexivity | now rewrite IH].
Qed.

(** [np.asarray] of a list of ints that is not empty. *)
Lemma asarray_ints (l : list Z) :
  l <> [] ->
  np.asarray (np.PList (map np.PInt l))
  = Ok {| np.dtype_of := np.int64;
          np.shape := [List.length l];
          np.data := map inject_Z l |}.
Proof.
  intros Hne. rewrite asarray_PList, mapM_map.
  rewrite (mapM_Ok _ (fun z => {| np.dtype_of := np.int64; np.shape := [];
                                  np.data := [inject_Z z] |}))
    by (apply Forall_forall; reflexivity).
  cbn [bind].
  rewrite <- (map_map (fun z => [inject_Z z])
                      (fun c => {| np.dtype_of := np.int64; np.shape := [];
                                   np.data := c |})).
  rewrite stack_blocks.
  - rewrite length_map, concat_singletons. reflexivity.
  - destruct l; [congruence | discriminate].
Qed.

(** [np.asarray([1] * n)]: [n] entries, all 1. *)
Lemma asarray_ones (n : nat) :
  exists a,
    np.asarray (np.PList (map np.PInt (repeat 1 n))) = Ok a /\
    a.(np.shape) = [n] /\
    Forall (fun x => x = 1%Q) a.(np.data).
Proof.
  destruct n as [|n].
  - eexists. split; [reflexivity|]. split; [reflexivity | constructor].
  - eexists. split; [apply asarray_ints; discriminate|].
    cbn [np.shape np.data]. rewrite repeat_length. split; [reflexivity|].
    apply Forall_map. apply Forall_repeat. reflexivity.
Qed.

Lemma all2_ones (l1 l2 : list Q) :
  Forall (fun x => x = 1%Q) l1 -> Forall (fun x => x = 1%Q) l2 ->
  all2 np.isclose l1 l2 = true.
Proof.
  intros H1. revert l2. induction H1 as [|x l1 -> _ IH]; intros l2 H2.
  - reflexivity.
  - destruct H2 as [|y l2 -> H2]; [reflexivity|].
    cbn [all2]. rewrite (IH _ H2). reflexivity.
Qed.

Lemma broadcast_data_1d_Forall (P : Q -> Prop) (s t : nat) (d : list Q) :
  Forall P d -> Forall P (np.broadcast_data [s] [t] d).
Proof.
  intros Hd. cbn [np.broadcast_data].
  destruct (Nat.eqb s t).
  - apply Forall_concat. apply Forall_map.
    eapply Forall_impl; [|apply chunks_Forall; exact Hd].
    intros c Hc. destruct c; exact Hc.
  - apply Forall_concat. apply Forall_repeat. exact Hd.
Qed.

(** [allclose] of two vectors of ones of lengths [n1] and [n2]: true when
    the lengths broadcast, [ValueError] when they do not. *)
Lemma allclose_ones (a b : np.ndarray) (n1 n2 : nat) :
  a.(np.shape) = [n1] -> b.(np.shape) = [n2] ->
  Forall (fun x => x = 1%Q) a.(np.data) ->
  Forall (fun x => x = 1%Q) b.(np.data) ->
  np.allclose a b
  = if Nat.eqb n1 n2 || Nat.eqb n1 1 || Nat.eqb n2 1
    then Ok true else Raise ValueError.
Proof.
  intros Ha Hb Hda Hdb. unfold np.allclose, np.broadcast_shapes.
  rewrite Ha, Hb. cbn [rev app np.broadcast_rev].
  destruct (Nat.eqb n1 n2); [|destruct (Nat.eqb n1 1);
                              [|destruct (Nat.eqb n2 1)]];
    cbn [option_map rev app orb List.length np.pad_shape Nat.sub repeat];
    try reflexivity;
    f_equal; apply all2_ones; apply broadcast_data_1d_Forall; assumption.
Qed.

Section SimplexEquality.
Context `{NumpyRandom}.

(** What [Simplex(shape)] is when it is built. *)
Lemma init_default_inv (shape : Simplex.shape_arg) (dt : np.dtype)
      (e : rng) (self : Simplex.t) :
  Simplex.__init__ shape None dt e = Ok self ->
  accepted_type shape /\
  shape.(Simplex.items) <> [] /\
  self = {| Simplex.shape := shape.(Simplex.items);
            Simplex.dtype := dt;
            Simplex.dim := last shape.(Simplex.items) 0;
            Simplex.concentration :=
              Some (repeat 1 (Z.to_nat (last shape.(Simplex.items) 0)));
            Simplex.np_random := e |}.
Proof.
  intros Hinit.
  assert (Hty : accepted_type shape).
  { unfold accepted_type. unfold Simplex.__init__ in Hinit.
    destruct (Simplex.type_of shape); auto. discriminate Hinit. }
  assert (Hne : shape.(Simplex.items) <> []).
  { intros Hnil. unfold Simplex.__init__, Simplex.getitem_last in Hinit.
    rewrite Hnil in Hinit.
    destruct Hty as [Ht | Ht]; rewrite Ht in Hinit; discriminate Hinit. }
  split; [exact Hty|]. split; [exact Hne|].
  rewrite (init_default shape dt e Hty Hne) in Hinit.
  inversion Hinit. reflexivity.
Qed.

(** The outcome of [==] on two instances built without [concentration]. *)
Lemma eq_default (shape1 shape2 : Simplex.shape_arg) (dt1 dt2 : np.dtype)
      (e1 e2 : rng) (s1 s2 : Simplex.t) :
  Simplex.__init__ shape1 None dt1 e1 = Ok s1 ->
  Simplex.__init__ shape2 None dt2 e2 = Ok s2 ->
  Simplex.__eq__ s1 s2
  = if Nat.eqb (Z.to_nat s1.(Simplex.dim)) (Z.to_nat s2.(Simplex.dim))
       || Nat.eqb (Z.to_nat s1.(Simplex.dim)) 1
       || Nat.eqb (Z.to_nat s2.(Simplex.dim)) 1
    then Ok (Zlist_eqb shape1.(Simplex.items) shape2.(Simplex.items))
    else Raise ValueError.
Proof.
  intros H1 H2.
  apply init_default_inv in H1. destruct H1 as (_ & _ & ->).
  apply init_default_inv in H2. destruct H2 as (_ & _ & ->).
  unfold Simplex.__eq__.
  cbn [Simplex.concentration Simplex.shape Simplex.dim getattr bind].
  destruct (asarray_ones (Z.to_nat (last shape1.(Simplex.items) 0)))
    as (a1 & -> & Hs1 & Hd1).
  destruct (asarray_ones (Z.to_nat (last shape2.(Simplex.items) 0)))
    as (a2 & -> & Hs2 & Hd2).
  cbn [bind]. rewrite (allclose_ones a1 a2 _ _ Hs1 Hs2 Hd1 Hd2).
  destruct (_ || _); reflexivity.
Qed.

(** X9.  Two instances built without [concentration] from shapes with the same
    items are equal: [==] returns true, whether the shapes were tuples or
    lists and whatever the two dtypes and generators are.  More
    generally, when the two last items are the same or one of them is 1,
    [==] returns whether the two shapes are equal. *)
Theorem Simplex_eq_compares_shapes
        (shape1 shape2 : Simplex.shape_arg) (dt1 dt2 : np.dtype)
        (e1 e2 : rng) (s1 s2 : Simplex.t) :
  Simplex.__init__ shape1 None dt1 e1 = Ok s1 ->
  Simplex.__init__ shape2 None dt2 e2 = Ok s2 ->
  (shape1.(Simplex.items) = shape2.(Simplex.items) ->
   Simplex.__eq__ s1 s2 = Ok true) /\
  (s1.(Simplex.dim) = s2.(Simplex.dim) \/
   s1.(Simplex.dim) = 1 \/ s2.(Simplex.dim) = 1 ->
   Simplex.__eq__ s1 s2
   = Ok (Zlist_eqb shape1.(Simplex.items) shape2.(Simplex.items))).
Proof.
  intros H1 H2. rewrite (eq_default _ _ _ _ _ _ _ _ H1 H2).
  pose proof (init_default_inv _ _ _ _ H1) as (_ & _ & E1).
  pose proof (init_default_inv _ _ _ _ H2) as (_ & _ & E2).
  split.
  - intros Hitems. rewrite E1, E2. cbn [Simplex.dim].
    rewrite Hitems, Nat.eqb_refl, Zlist_eqb_refl. reflexivity.
  - intros [Hd | [Hd | Hd]]; rewrite Hd.
    + rewrite Nat.eqb_refl. reflexivity.
    + change (Z.to_nat 1) with 1%nat. rewrite Nat.eqb_refl, orb_true_r.
      reflexivity.
    + change (Z.to_nat 1) with 1%nat. rewrite Nat.eqb_refl, orb_true_r.
      reflexivity.
Qed.

(** X10.  Two instances built without [concentration] whose last items differ
    and are both at least 2 are not compared: [==] raises [ValueError],
    from [allclose] on two vectors of ones that do not broadcast. *)
Theorem Simplex_eq_raises_on_dims
        (shape1 shape2 : Simplex.shape_arg) (dt1 dt2 : np.dtype)
        (e1 e2 : rng) (s1 s2 : Simplex.t) :
  Simplex.__init__ shape1 None dt1 e1 = Ok s1 ->
  Simplex.__init__ shape2 None dt2 e2 = Ok s2 ->
  2 <= s1.(Simplex.dim) -> 2 <= s2.(Simplex.dim) ->
  s1.(Simplex.dim) <> s2.(Simplex.dim) ->
  Simplex.__eq__ s1 s2 = Raise ValueError.
Proof.
  intros H1 H2 Hd1 Hd2 Hne. rewrite (eq_default _ _ _ _ _ _ _ _ H1 H2).
  replace (Nat.eqb (Z.to_nat s1.(Simplex.dim)) (Z.to_nat s2.(Simplex.dim)))
    with false by (symmetry; apply Nat.eqb_neq; lia).
  replace (Nat.eqb (Z.to_nat s1.(Simplex.dim)) 1)
    with false by (symmetry; apply Nat.eqb_neq; lia).
  replace (Nat.eqb (Z.to_nat s2.(Simplex.dim)) 1)
    with false by (symmetry; apply Nat.eqb_neq; lia).
  reflexivity.
Qed.

End SimplexEquality.

(** ** [Simplex.sample]: integer dtypes, and simplices in a list space *)

Lemma Qtrunc_unit_interval (x : Q) :
  (0 <= x)%Q -> (x <= 1)%Q -> Qtrunc x = 0 \/ Qtrunc x = 1.
Proof.
  unfold Qle, Qtrunc. destruct x as [p q]. simpl. intros H0 H1.
  destruct (Z.eq_dec p (Z.pos q)) as [->|Hne].
  - right. apply Z.quot_same. discriminate.
  - left. apply Z.quot_small. lia.
Qed.

Lemma Qtrunc_below (x : Q) : (0 <= x)%Q -> (inject_Z (Qtrunc x) <= x)%Q.
Proof.
  unfold Qle, Qtrunc. destruct x as [p q]. simpl. intros H0.
  rewrite Z.mul_1_r in H0.
  pose proof (Z.mul_quot_le p (Z.pos q) H0).
  rewrite Z.mul_1_r, Z.mul_comm. apply H. lia.
Qed.

Lemma Qsum_bounds_entries (r : list Q) :
  Forall (fun x => (0 <= x)%Q) r ->
  Forall (fun x => (x <= Qsum r)%Q) r.
Proof.
  induction 1 as [|x r Hx Hr IH]; simpl; constructor.
  - assert (Hs : (0 <= Qsum r)%Q).
    { clear IH. induction Hr as [|y r Hy _ IHr]; simpl.
      - apply Qle_refl.
      - setoid_replace 0%Q with (0 + 0)%Q by ring.
        apply Qplus_le_compat; assumption. }
    setoid_replace x with (x + 0)%Q at 1 by ring.
    apply Qplus_le_compat; [apply Qle_refl | exact Hs].
  - eapply Forall_impl; [|exact IH]. intros y Hy. simpl in Hy.
    setoid_replace y with (0 + y)%Q by ring.
    apply Qplus_le_compat; assumption.
Qed.

Lemma Qsum_le (l1 l2 : list Q) :
  Forall2 Qle l1 l2 -> (Qsum l1 <= Qsum l2)%Q.
Proof.
  induction 1 as [|x y l1 l2 Hxy _ IH]; simpl.
  - apply Qle_refl.
  - apply Qplus_le_compat; assumption.
Qed.

Lemma chunks_map {A B : Type} (f : A -> B) (n k : nat) (d : list A) :
  chunks n k (map f d) = map (map f) (chunks n k d).
Proof.
  revert d; induction n as [|n IH]; intros d; simpl; [reflexivity|].
  rewrite firstn_map, skipn_map, IH. reflexivity.
Qed.

Lemma Forall_in_chunks {A : Type} (P : A -> Prop) (n k : nat)
      (d : list A) :
  List.length d = (n * k)%nat ->
  Forall (Forall P) (chunks n k d) -> Forall P d.
Proof.
  intros Hlen Hall. rewrite <- (concat_chunks n k d Hlen).
  apply Forall_concat. exact Hall.
Qed.

Section SimplexDraws.
Context `{NumpyRandom}.

(** [sample()] of an instance whose [concentration] holds [shape[-1]]
    positive weights, the leading items of the shape being no negative
    numbers: the Dirichlet draw is made and cast. *)
Lemma sample_of_weights (self : Simplex.t) (conc : list Z) (g : rng) :
  self.(Simplex.concentration) = Some conc ->
  conc <> [] ->
  Forall (fun w => 0 < w) conc ->
  self.(Simplex.shape) <> [] ->
  Forall (fun n => 0 <= n) (removelast self.(Simplex.shape)) ->
  last self.(Simplex.shape) 0 = Z.of_nat (List.length conc) ->
  exists raw g',
    Simplex.sample self g = Ok (np.astype raw self.(Simplex.dtype), g') /\
    map Z.of_nat raw.(np.shape) = self.(Simplex.shape) /\
    np.well_formed raw /\
    Forall (fun x => (0 <= x)%Q) raw.(np.data) /\
    Forall (fun r => (Qsum r == 1)%Q) (np.rows raw).
Proof.
  intros Hconc Hne Hpos Hshape Hlead Hlast.
  assert (Halpha : map inject_Z conc <> [])
    by (destruct conc; [congruence | discriminate]).
  assert (Hqpos : Forall (fun x => (0 < x)%Q) (map inject_Z conc)).
  { apply Forall_map. eapply Forall_impl; [|exact Hpos].
    intros w Hw. simpl. change 0%Q with (inject_Z 0).
    rewrite <- Zlt_Qlt. exact Hw. }
  destruct (dirichlet_support g _ _ Halpha Hqpos Hlead)
    as (raw & g' & Hdraw & _ & Hrs & Hwf & Hnn & Hsum).
  exists raw, g'. split.
  { unfold Simplex.sample. rewrite Hconc. cbn [getattr bind].
    rewrite Hdraw. reflexivity. }
  split; [|split; [exact Hwf | split; [exact Hnn | exact Hsum]]].
  rewrite Hrs, map_app, of_nat_to_nat_list by exact Hlead.
  rewrite length_map. cbn [map]. rewrite <- Hlast.
  symmetry. apply app_removelast_last. exact Hshape.
Qed.

(** X11.  With the dtype [int64] the cast rounds every entry of the draw
    towards zero: [Simplex(shape, dtype=int64)] is built, [sample()]
    returns an array of the shape whose entries are all 0 or 1, and no
    sum along the last axis exceeds 1. *)
Theorem Simplex_sample_int64 (shape : Simplex.shape_arg) (e g : rng) :
  accepted_type shape ->
  Forall (fun n => 0 <= n) shape.(Simplex.items) ->
  1 <= last shape.(Simplex.items) 0 ->
  exists self a g',
    Simplex.__init__ shape None np.int64 e = Ok self /\
    Simplex.sample self g = Ok (a, g') /\
    a.(np.dtype_of) = np.int64 /\
    map Z.of_nat a.(np.shape) = shape.(Simplex.items) /\
    Forall (fun x => x = inject_Z 0 \/ x = inject_Z 1) a.(np.data) /\
    Forall (fun r => (Qsum r <= 1)%Q) (np.rows a).
Proof.
  intros Hty Hnn Hdim.
  assert (Hne : shape.(Simplex.items) <> []).
  { intros Hnil. rewrite Hnil in Hdim. simpl in Hdim. lia. }
  eexists. 
  destruct (sample_of_weights
              {| Simplex.shape := shape.(Simplex.items);
                 Simplex.dtype := np.int64;
                 Simplex.dim := last shape.(Simplex.items) 0;
                 Simplex.concentration :=
                   Some (repeat 1 (Z.to_nat (last shape.(Simplex.items) 0)));
                 Simplex.np_random := e |}
              (repeat 1 (Z.to_nat (last shape.(Simplex.items) 0))) g)
    as (raw & g' & Hs & Hshape & [Hlen _] & Hpos & Hsum);
    cbn [Simplex.concentration Simplex.shape Simplex.dtype] in *.
  - reflexivity.
  - destruct (Z.to_nat (last shape.(Simplex.items) 0)) eqn:Hk;
      [lia | discriminate].
  - apply Forall_repeat. lia.
  - exact Hne.
  - apply Forall_removelast. exact Hnn.
  - rewrite repeat_length, Z2Nat.id by lia. reflexivity.
  - exists (np.astype raw np.int64), g'.
    split; [apply init_default; assumption|].
    split; [exact Hs|]. split; [reflexivity|]. split; [exact Hshape|].
    assert (Hraw : raw.(np.shape) <> []).
    { intros Hnil. rewrite Hnil in Hshape. simpl in Hshape. congruence. }
    assert (Hlen' : List.length raw.(np.data)
                    = (np.size_of (removelast raw.(np.shape))
                       * last raw.(np.shape) 0%nat)%nat).
    { rewrite Hlen. apply size_of_split. exact Hraw. }
    assert (Hrows : Forall (fun r => Forall (fun x => (0 <= x)%Q) r /\
                                     (Qsum r == 1)%Q) (np.rows raw)).
    { apply Forall_forall. intros r Hr. split.
      - pose proof (chunks_Forall _ (np.size_of (removelast raw.(np.shape)))
                                  (last raw.(np.shape) 0%nat) _ Hpos) as Hc.
        rewrite Forall_forall in Hc. apply Hc. exact Hr.
      - rewrite Forall_forall in Hsum. apply Hsum. exact Hr. }
    split.
    + cbn [np.astype np.data]. apply Forall_map.
      apply (Forall_in_chunks _ _ _ _ Hlen').
      eapply Forall_impl; [|exact Hrows].
      intros r [Hr0 Hr1]. pose proof (Qsum_bounds_entries r Hr0) as Hb.
      rewrite Forall_forall in *. intros x Hx.
      destruct (Qtrunc_unit_interval x (Hr0 x Hx)) as [-> | ->]; auto.
      rewrite <- Hr1. apply Hb. exact Hx.
    + unfold np.rows. cbn [np.astype np.shape np.data].
      rewrite chunks_map. apply Forall_map.
      eapply Forall_impl; [|exact Hrows].
      intros r [Hr0 Hr1]. rewrite <- Hr1. apply Qsum_le.
      clear Hr1. induction Hr0 as [|x r Hx _ IH]; simpl; constructor.
      * apply Qtrunc_below. exact Hx.
      * exact IH.
Qed.

End SimplexDraws.

Section SimplexInList.
Context `{NumpyRandom}.



End SimplexInList.

(** ** [to_jsonable] item by item, and the encoding of what is decoded *)

Lemma size_of_listed (s : list nat) :
  np.size_of (listed_shape s) = np.size_of s.
Proof.
  induction s as [|n s IH]; [reflexivity|].
  cbn [listed_shape]. destruct (Nat.eqb_spec n 0) as [->|Hn].
  - reflexivity.
  - unfold np.size_of in *. cbn [fold_right]. rewrite IH. reflexivity.
Qed.

(** The nested list of an array does not show the axes behind an axis of
    length 0, nor a dtype where there is no entry. *)
Lemma tolist_aux_listed (dt : np.dtype) (s : list nat) :
  forall d,
    List.length d = np.size_of s ->
    np.tolist_aux (listed_dtype dt s) (listed_shape s) d
    = np.tolist_aux dt s d.
Proof.
  induction s as [|n s IH]; intros d Hlen.
  - cbn [listed_dtype listed_shape np.tolist_aux]. destruct dt; reflexivity.
  - cbn [listed_dtype listed_shape].
    destruct (Nat.eqb_spec n 0) as [->|Hn]; [reflexivity|].
    cbn [np.tolist_aux]. rewrite size_of_listed. f_equal.
    apply map_ext_Forall.
    eapply Forall_impl; [|apply (chunks_block_length n _ d); exact Hlen].
    intros c Hc. apply IH. exact Hc.
Qed.

Section Jsonable.
Context `{NumpyRandom}.

(** [to_jsonable] on arrays of one shape: the list of the nested lists of
    the arrays, rendered with their common dtype. *)
Lemma to_jsonable_value (self : Simplex.t) (a : np.ndarray)
      (l : list np.ndarray) (s : list nat) :
  Forall (fun b => List.length b.(np.data) = np.size_of b.(np.shape) /\
                   b.(np.shape) = s) (a :: l) ->
  Simplex.to_jsonable self (a :: l)
  = Ok (np.PList
          (map (fun b =>
                  np.tolist_aux
                    (fold_left np.promote (map np.dtype_of l)
                               a.(np.dtype_of))
                    s b.(np.data))
               (a :: l))).
Proof.
  intros Hxs. set (xs := a :: l) in *.
  assert (Ha : a.(np.shape) = s) by (destruct (Forall_inv Hxs); assumption).
  unfold Simplex.to_jsonable, np.stack. fold xs.
  unfold xs at 1.
  replace (forallb _ l) with true.
  - cbn [bind]. unfold np.tolist.
    cbn [np.dtype_of np.shape np.data np.tolist_aux]. rewrite Ha.
    rewrite <- (length_map np.data xs) at 1.
    rewrite (chunks_concat (np.size_of s)).
    + rewrite map_map. reflexivity.
    + apply Forall_map. eapply Forall_impl; [|exact Hxs].
      intros b [Hlen Hs]. rewrite <- Hs. exact Hlen.
  - symmetry. apply forallb_forall. intros b Hb.
    pose proof (Forall_inv_tail Hxs) as Hl.
    rewrite Forall_forall in Hl. destruct (Hl b Hb) as [_ Hs].
    rewrite Hs, Ha. apply shape_eqb_refl.
Qed.

(** [from_jsonable] on the nested lists of blocks of entries. *)
Lemma from_jsonable_listed (self : Simplex.t) (dt : np.dtype)
      (s : list nat) (ds : list (list Q)) :
  Forall (fun d => List.length d = np.size_of s) ds ->
  (dt = np.int64 -> Forall (Forall np.integral) ds) ->
  Simplex.from_jsonable self (np.PList (map (np.tolist_aux dt s) ds))
  = Ok (map (fun d => {| np.dtype_of := listed_dtype dt s;
                         np.shape := listed_shape s;
                         np.data := d |}) ds).
Proof.
  intros Hlens Hints. unfold Simplex.from_jsonable.
  rewrite mapM_map. apply mapM_Ok.
  rewrite Forall_forall. intros d Hd. apply asarray_tolist.
  - rewrite Forall_forall in Hlens. apply Hlens. exact Hd.
  - intros Hdt. specialize (Hints Hdt).
    rewrite Forall_forall in Hints. apply Hints. exact Hd.
Qed.

(** X13.  [to_jsonable] works array by array: on arrays of one shape and one
    dtype it returns the list of their [tolist()], in the order of the
    arrays; on no array, the empty list. *)
Theorem to_jsonable_lists_each_array (self : Simplex.t)
        (xs : list np.ndarray) (s : list nat) (dt : np.dtype) :
  Forall (fun a => List.length a.(np.data) = np.size_of a.(np.shape) /\
                   a.(np.shape) = s /\ a.(np.dtype_of) = dt) xs ->
  Simplex.to_jsonable self xs = Ok (np.PList (map np.tolist xs)).
Proof.
  intros Hxs. destruct xs as [|a l]; [reflexivity|].
  rewrite (to_jsonable_value self a l s).
  - f_equal. f_equal.
    assert (Hdt : fold_left np.promote (map np.dtype_of l) a.(np.dtype_of)
                  = dt).
    { destruct (Forall_inv Hxs) as (_ & _ & ->).
      apply fold_promote_same. apply Forall_map.
      eapply Forall_impl; [|exact (Forall_inv_tail Hxs)].
      intros b (_ & _ & Hb). exact Hb. }
    rewrite Hdt. apply map_ext_Forall.
    eapply Forall_impl; [|exact Hxs].
    intros b (_ & Hs & Hb). unfold np.tolist. rewrite Hs, Hb. reflexivity.
  - eapply Forall_impl; [|exact Hxs]. intros b (Hlen & Hs & _).
    split; assumption.
Qed.

(** X14.  The encoding is stable: what [from_jsonable] makes of the result of
    [to_jsonable] is encoded by [to_jsonable] as that same result, for
    arrays of one shape (of any dtypes, and also with axes of length
    0). *)
Theorem jsonable_encoding_stable (self : Simplex.t)
        (xs ys : list np.ndarray) (s : list nat) (j : np.nested) :
  Forall (fun a => np.well_formed a /\ a.(np.shape) = s) xs ->
  Simplex.to_jsonable self xs = Ok j ->
  Simplex.from_jsonable self j = Ok ys ->
  Simplex.to_jsonable self ys = Ok j.
Proof.
  intros Hxs Hto Hfrom. destruct xs as [|a l].
  { inversion Hto; subst. inversion Hfrom; subst. reflexivity. }
  set (dtS := fold_left np.promote (map np.dtype_of l) a.(np.dtype_of)).
  assert (Hlens : Forall (fun b => List.length b.(np.data)
                                   = np.size_of b.(np.shape) /\
                                   b.(np.shape) = s) (a :: l)).
  { eapply Forall_impl; [|exact Hxs]. intros b [[Hlen _] Hs].
    split; assumption. }
  rewrite (to_jsonable_value self a l s Hlens) in Hto. fold dtS in Hto.
  set (ds := map np.data (a :: l)).
  assert (Hj : j = np.PList (map (np.tolist_aux dtS s) ds)).
  { unfold ds. rewrite map_map. congruence. }
  subst j. clear Hto.
  assert (Hds : Forall (fun d => List.length d = np.size_of s) ds).
  { apply Forall_map. eapply Forall_impl; [|exact Hlens].
    intros b [Hlen Hs]. rewrite <- Hs. exact Hlen. }
  assert (Hints : dtS = np.int64 -> Forall (Forall np.integral) ds).
  { intros Hdt. apply fold_promote_int64 in Hdt.
    destruct Hdt as [Hdta Hdtl]. apply Forall_map.
    assert (Hall : Forall (fun b => b.(np.dtype_of) = np.int64) (a :: l)).
    { constructor; [exact Hdta|].
      rewrite Forall_forall in *. intros b Hb. apply Hdtl.
      apply in_map. exact Hb. }
    rewrite Forall_forall in *. intros b Hb.
    destruct (Hxs b Hb) as [[_ Hint] _]. apply Hint. apply Hall. exact Hb. }
  rewrite (from_jsonable_listed self dtS s ds Hds Hints) in Hfrom.
  assert (Hys : ys = map (fun d => {| np.dtype_of := listed_dtype dtS s;
                                      np.shape := listed_shape s;
                                      np.data := d |}) ds)
    by congruence.
  subst ys. clear Hfrom. clearbody ds dtS.
  destruct ds as [|d0 ds]; [reflexivity|].
  cbn [map].
  rewrite (to_jsonable_value self _ _ (listed_shape s)).
  - f_equal. f_equal. cbn [np.dtype_of np.data].
    rewrite map_map. cbn [np.dtype_of].
    rewrite fold_promote_same
      by (apply Forall_map; apply Forall_forall; reflexivity).
    rewrite <- !map_cons, map_map. cbn [np.data].
    apply map_ext_Forall. eapply Forall_impl; [|exact Hds].
    intros d Hd. apply tolist_aux_listed. exact Hd.
  - rewrite <- map_cons. apply Forall_map.
    eapply Forall_impl; [|exact Hds]. intros d Hd. cbn [np.data np.shape].
    split; [rewrite size_of_listed; exact Hd | reflexivity].
Qed.

End Jsonable.

(** ** [ListBatch]: the batch and the caller share the objects *)

(** X15.  The batch keeps the caller's objects themselves.  When, after the
    construction, the caller changes the object behind [lengths] (or the
    one behind [value]), [repr] of the batch shows the changed object;
    the other attribute is rendered as before. *)
Theorem ListBatch_repr_follows_caller {obj : Type}
        (repr_obj : obj -> string) (h h' : ListBatch.heap obj)
        (value lengths : ListBatch.ref) (max_len : Z) (o : obj)
        (self : ListBatch.t) :
  ListBatch.__init__ h value lengths max_len = Ok (h', self) ->
  value <> lengths ->
  ListBatch.__repr__ repr_obj (ListBatch.update h' lengths o) self
  = Ok ("ListBatch(value=" ++ ListBatch.repr_ref repr_obj h value
        ++ ", lengths=" ++ repr_obj o
        ++ ", max_len=" ++ str_int max_len ++ ")")%string /\
  ListBatch.__repr__ repr_obj (ListBatch.update h' value o) self
  = Ok ("ListBatch(value=" ++ repr_obj o
        ++ ", lengths=" ++ ListBatch.repr_ref repr_obj h lengths
        ++ ", max_len=" ++ str_int max_len ++ ")")%string.
Proof.
  intros Hinit Hne. inversion Hinit; subst; clear Hinit.
  rewrite !ListBatch_repr_value.
  cbn [ListBatch.value ListBatch.lengths ListBatch.max_len].
  unfold ListBatch.repr_ref, ListBatch.update.
  rewrite !Nat.eqb_refl.
  replace (Nat.eqb value lengths) with false
    by (symmetry; apply Nat.eqb_neq; exact Hne).
  replace (Nat.eqb lengths value) with false
    by (symmetry; apply Nat.eqb_neq; congruence).
  split; reflexivity.
Qed.

(* ================================================================= *)
(** ** The further properties at concrete spaces, on the generator [lcg] *)

(** A second list space, of [Discrete(7)], with the [max_len] of
    [repeated_4]. *)
Definition repeated_4_of_7 : Repeated.t (Discrete 7) :=
  Repeated.__init__ (child := Discrete 7) 9 4 12.

(** What [Simplex((2, 3), concentration=np.ones(2))] builds, and
    [Simplex((2,), dtype=int64)]. *)
Definition simplex_unset : Simplex.t :=
  {| Simplex.shape := [2; 3];
     Simplex.dtype := np.float32;
     Simplex.dim := 3;
     Simplex.concentration := None;
     Simplex.np_random := 0 |}.

Definition simplex_2_int64 : Simplex.t :=
  {| Simplex.shape := [2];
     Simplex.dtype := np.int64;
     Simplex.dim := 2;
     Simplex.concentration := Some [1; 1];
     Simplex.np_random := 0 |}.

(** Lists of at most 3 simplices, and lists of at most 3 lists of at most
    2 elements of [Discrete(5)]. *)
Definition repeated_simplex (spx : Simplex.t)
  : Repeated.t (Simplex.as_space spx) :=
  Repeated.__init__ (child := Simplex.as_space spx) 0 3 5.

Definition repeated_2 : Repeated.t (Discrete 5) :=
  Repeated.__init__ (child := Discrete 5) 3 2 11.

Definition repeated_3_of_lists
  : Repeated.t (Repeated_as_space (Discrete 5) repeated_2) :=
  Repeated.__init__ (child := Repeated_as_space (Discrete 5) repeated_2)
                    (11, 3) 3 5.

Lemma Repeated_sample_raises_with_child_witness :
  1 <= (repeated_simplex simplex_unset).(Repeated.max_len) < 2 ^ 63 /\
  sp_sample (Simplex.as_space simplex_unset)
            (repeated_simplex simplex_unset).(Repeated.child_space)
  = Raise AttributeError /\
  Repeated.sample (repeated_simplex simplex_unset) = Raise AttributeError.
Proof.
  assert (Hmax : 1 <= (repeated_simplex simplex_unset).(Repeated.max_len)
                 < 2 ^ 63) by (simpl; lia).
  split; [exact Hmax|]. split; [reflexivity|].
  apply (Repeated_sample_raises_with_child
           (H := lcg) (Simplex.as_space simplex_unset)
           (repeated_simplex simplex_unset) AttributeError Hmax).
  reflexivity.
Defined.

(** [repeated_4] and [repeated_4_of_7] after [seed(42)], and three
    draws of each. *)
Definition seeded_4 : Repeated.t (Discrete 5) :=
  Repeated.__init__ (child := Discrete 5) 3 4 42.

Definition seeded_4_of_7 : Repeated.t (Discrete 7) :=
  Repeated.__init__ (child := Discrete 7) 9 4 42.

Definition three_draws_of_5 : list pyval :=
  [PyList [PyInt 4; PyInt 3; PyInt 0];
   PyList [PyInt 3; PyInt 4; PyInt 3];
   PyList [PyInt 0; PyInt 0; PyInt 4]].

Definition three_draws_of_7 : list pyval :=
  [PyList [PyInt 5; PyInt 2; PyInt 0];
   PyList [PyInt 0; PyInt 4; PyInt 2];
   PyList [PyInt 3; PyInt 4; PyInt 0]].

Lemma Repeated_seed_fixes_lengths_witness :
  repeated_4.(Repeated.max_len) = repeated_4_of_7.(Repeated.max_len) /\
  Repeated.seed repeated_4 (Some 42) 0 = Ok seeded_4 /\
  Repeated.seed repeated_4_of_7 (Some 42) 1 = Ok seeded_4_of_7 /\
  Repeated.draw (child := Repeated_as_space (Discrete 5) seeded_4) 3
                (42, 3)
  = Ok (three_draws_of_5, (7615522811268512075, 10211955533338721854)) /\
  Repeated.draw (child := Repeated_as_space (Discrete 7) seeded_4_of_7) 3
                (42, 9)
  = Ok (three_draws_of_7, (7615522811268512075, 12823928297016389900)) /\
  three_draws_of_5 <> three_draws_of_7 /\
  map py_len three_draws_of_5 = map py_len three_draws_of_7.
Proof.
  assert (Hmax : repeated_4.(Repeated.max_len)
                 = repeated_4_of_7.(Repeated.max_len)) by reflexivity.
  assert (Ha : Repeated.seed repeated_4 (Some 42) 0 = Ok seeded_4)
    by reflexivity.
  assert (Hb : Repeated.seed repeated_4_of_7 (Some 42) 1
               = Ok seeded_4_of_7) by reflexivity.
  assert (H1 : Repeated.draw
                 (child := Repeated_as_space (Discrete 5) seeded_4) 3
                 (seeded_4.(Repeated.np_random),
                  seeded_4.(Repeated.child_space))
               = Ok (three_draws_of_5,
                     (7615522811268512075, 10211955533338721854)))
    by reflexivity.
  assert (H2 : Repeated.draw
                 (child := Repeated_as_space (Discrete 7) seeded_4_of_7) 3
                 (seeded_4_of_7.(Repeated.np_random),
                  seeded_4_of_7.(Repeated.child_space))
               = Ok (three_draws_of_7,
                     (7615522811268512075, 12823928297016389900)))
    by reflexivity.
  split; [exact Hmax|]. split; [exact Ha|]. split; [exact Hb|].
  split; [exact H1|]. split; [exact H2|]. split; [discriminate|].
  exact (proj1 (proj2 (proj2
           (Repeated_seed_fixes_lengths
              (H := lcg) (Discrete 5) (Discrete 7)
              repeated_4 seeded_4 repeated_4_of_7 seeded_4_of_7
              42 0 1 3 _ _ _ _ Hmax Ha Hb H1 H2)))).
Defined.

Lemma Repeated_of_Repeated_sample_in_space_witness :
  1 <= repeated_2.(Repeated.max_len) /\
  1 <= repeated_3_of_lists.(Repeated.max_len) /\
  exists x outer',
    Repeated.sample repeated_3_of_lists = Ok (x, outer') /\
    x = PyList [PyList [PyInt 4]; PyList [PyInt 3; PyInt 0]] /\
    Repeated.contains repeated_3_of_lists x = Ok true.
Proof.
  assert (Hinner : 1 <= repeated_2.(Repeated.max_len)) by (simpl; lia).
  assert (Houter : 1 <= repeated_3_of_lists.(Repeated.max_len))
    by (simpl; lia).
  split; [exact Hinner|]. split; [exact Houter|].
  eexists; eexists. split; [reflexivity|]. split; [reflexivity|].
  destruct (Repeated_of_Repeated_sample_in_space
              (H := lcg) (Discrete 5) repeated_2 repeated_3_of_lists _ _
              Hinner Houter (Discrete_sample_accepted 5) eq_refl)
    as [Hcontains _].
  exact Hcontains.
Defined.

Lemma Simplex_contains_raises_iff_witness :
  simplex_2.(Simplex.shape) <> [] /\
  Simplex.contains simplex_2 (PyList [PyFloat (1 # 2); PyFloat (1 # 2)])
  = Raise AttributeError.
Proof.
  assert (Hne : simplex_2.(Simplex.shape) <> []) by discriminate.
  split; [exact Hne|].
  apply (Simplex_contains_raises_iff (H := lcg) simplex_2 _ AttributeError
                                     Hne).
  left. split; [discriminate | reflexivity].
Defined.

Lemma Simplex_eq_compares_shapes_witness :
  exists s1 s2 : Simplex.t,
    Simplex.__init__ (tuple_shape [2; 3]) None np.float32 7 = Ok s1 /\
    Simplex.__init__ (list_shape [2; 3]) None np.float64 8 = Ok s2 /\
    s1 <> s2 /\
    Simplex.__eq__ s1 s2 = Ok true.
Proof.
  eexists; eexists. split; [reflexivity|]. split; [reflexivity|].
  split; [discriminate|].
  exact (proj1 (Simplex_eq_compares_shapes
                  (H := lcg) (tuple_shape [2; 3]) (list_shape [2; 3])
                  np.float32 np.float64 7 8 _ _ eq_refl eq_refl)
               eq_refl).
Defined.

Lemma Simplex_eq_raises_on_dims_witness :
  exists s1 s2 : Simplex.t,
    Simplex.__init__ (tuple_shape [2]) None np.float32 7 = Ok s1 /\
    Simplex.__init__ (tuple_shape [3]) None np.float32 8 = Ok s2 /\
    2 <= s1.(Simplex.dim) /\ 2 <= s2.(Simplex.dim) /\
    s1.(Simplex.dim) <> s2.(Simplex.dim) /\
    Simplex.__eq__ s1 s2 = Raise ValueError.
Proof.
  eexists; eexists. split; [reflexivity|]. split; [reflexivity|].
  assert (H1 : 2 <= 2) by lia.
  assert (H2 : 2 <= 3) by lia.
  assert (Hne : 2 <> 3) by lia.
  split; [exact H1|]. split; [exact H2|]. split; [exact Hne|].
  exact (Simplex_eq_raises_on_dims
           (H := lcg) (tuple_shape [2]) (tuple_shape [3])
           np.float32 np.float32 7 8 _ _ eq_refl eq_refl H1 H2 Hne).
Defined.

Lemma Simplex_sample_int64_witness :
  accepted_type (tuple_shape [2]) /\
  Forall (fun n => 0 <= n) [2] /\
  1 <= last [2] 0 /\
  (exists (self : Simplex.t) a g',
      Simplex.__init__ (tuple_shape [2]) None np.int64 0 = Ok self /\
      Simplex.sample self 0 = Ok (a, g') /\
      Forall (fun x => x = inject_Z 0 \/ x = inject_Z 1) a.(np.data) /\
      Forall (fun r => (Qsum r <= 1)%Q) (np.rows a)) /\
  Simplex.sample simplex_2_int64 0
  = Ok ({| np.dtype_of := np.int64; np.shape := [2%nat];
           np.data := [0%Q; 0%Q] |}, 1442695040888963407) /\
  Simplex.contains simplex_2_int64
    (PyArray {| np.dtype_of := np.int64; np.shape := [2%nat];
                np.data := [0%Q; 0%Q] |}) = Ok false.
Proof.
  assert (Hty : accepted_type (tuple_shape [2])) by (left; reflexivity).
  assert (Hnn : Forall (fun n => 0 <= n) [2]) by (repeat constructor; lia).
  assert (Hdim : 1 <= last [2] 0) by (simpl; lia).
  split; [exact Hty|]. split; [exact Hnn|]. split; [exact Hdim|].
  split; [|split; reflexivity].
  destruct (Simplex_sample_int64 (H := lcg) (tuple_shape [2]) 0 0
                                 Hty Hnn Hdim)
    as (self & a & g' & Hinit & Hs & _ & _ & Hentries & Hsums).
  exists self, a, g'. repeat split; assumption.
Defined.


Lemma to_jsonable_lists_each_array_witness :
  Forall (fun a => List.length a.(np.data) = np.size_of a.(np.shape) /\
                   a.(np.shape) = [2%nat] /\ a.(np.dtype_of) = np.float32)
         [half_half; quarter_rest] /\
  Simplex.to_jsonable simplex_2 [half_half; quarter_rest]
  = Ok (np.PList [np.tolist half_half; np.tolist quarter_rest]).
Proof.
  assert (Hxs : Forall (fun a => List.length a.(np.data)
                                 = np.size_of a.(np.shape) /\
                                 a.(np.shape) = [2%nat] /\
                                 a.(np.dtype_of) = np.float32)
                       [half_half; quarter_rest])
    by (repeat constructor).
  split; [exact Hxs|].
  exact (to_jsonable_lists_each_array (H := lcg) simplex_2 _ _ _ Hxs).
Defined.

Lemma jsonable_encoding_stable_witness :
  exists j ys,
    Forall (fun a => np.well_formed a /\ a.(np.shape) = [2%nat])
           [half_half; quarter_rest] /\
    Simplex.to_jsonable simplex_2 [half_half; quarter_rest] = Ok j /\
    Simplex.from_jsonable simplex_2 j = Ok ys /\
    ys <> [half_half; quarter_rest] /\
    Simplex.to_jsonable simplex_2 ys = Ok j.
Proof.
  assert (Hxs : Forall (fun a => np.well_formed a /\ a.(np.shape) = [2%nat])
                       [half_half; quarter_rest]).
  { constructor; [|constructor; [|constructor]];
      (split; [split; [reflexivity | intros Hdt; discriminate Hdt]
              | reflexivity]). }
  eexists; eexists. split; [exact Hxs|].
  split; [reflexivity|]. split; [reflexivity|]. split; [discriminate|].
  exact (jsonable_encoding_stable (H := lcg) simplex_2 _ _ _ _
                                  Hxs eq_refl eq_refl).
Defined.

Lemma ListBatch_repr_follows_caller_witness :
  let h : ListBatch.heap (list Z) :=
    ListBatch.update (ListBatch.update (fun _ => None) 0%nat [0; 0; 0; 0])
                     1%nat [3; 5] in
  exists h' self,
    ListBatch.__init__ h 0%nat 1%nat 5 = Ok (h', self) /\
    0%nat <> 1%nat /\
    ListBatch.__repr__ str_list h' self
    = Ok "ListBatch(value=[0, 0, 0, 0], lengths=[3, 5], max_len=5)"%string
    /\
    ListBatch.__repr__ str_list (ListBatch.update h' 1%nat [3; 5; 7]) self
    = Ok "ListBatch(value=[0, 0, 0, 0], lengths=[3, 5, 7], max_len=5)"%string.
Proof.
  intros h. eexists; eexists. split; [reflexivity|].
  assert (Hne : 0%nat <> 1%nat) by discriminate.
  split; [exact Hne|]. split; [reflexivity|].
  exact (proj1 (ListBatch_repr_follows_caller
                  str_list h _ 0%nat 1%nat 5 [3; 5; 7] _ eq_refl Hne)).
Defined.

Lemma Repeated_contains_raises_iff_witness :
  Repeated.contains (repeated_simplex simplex_2)
                    (PyList [PyArray half_half; PyInt 5])
  = Raise AttributeError.
Proof.
  apply (Repeated_contains_raises_iff
           (H := lcg) (Simplex.as_space simplex_2)
           (repeated_simplex simplex_2) _ AttributeError).
  exists [PyArray half_half], (PyInt 5), [].
  split; [reflexivity|]. split; [simpl; lia|].
  split; [repeat constructor | reflexivity].
Defined.

Lemma Repeated_contains_false_iff_witness :
  Repeated.contains repeated_2 (PyList [PyInt 0; PyInt 1; PyInt 2])
  = Ok false /\
  Repeated.contains repeated_2 (PyList [PyInt 0; PyInt 9]) = Ok false.
Proof.
  split.
  - apply (Repeated_contains_false_iff (H := lcg) (Discrete 5) repeated_2).
    right; left. eexists. split; [reflexivity | simpl; lia].
  - apply (Repeated_contains_false_iff (H := lcg) (Discrete 5) repeated_2).
    right; right. exists [PyInt 0], (PyInt 9), [].
    split; [reflexivity|]. split; [simpl; lia|].
    split; [repeat constructor | reflexivity].
Defined.

Lemma Repeated_contains_concatenation_witness :
  Repeated.contains repeated_4 (PyList [PyInt 0; PyInt 1]) = Ok true /\
  Repeated.contains repeated_4 (PyList [PyInt 2; PyInt 3]) = Ok true /\
  Repeated.contains repeated_4
                    (PyList ([PyInt 0; PyInt 1] ++ [PyInt 2; PyInt 3]))
  = Ok true.
Proof.
  assert (H1 : Repeated.contains repeated_4 (PyList [PyInt 0; PyInt 1])
               = Ok true) by reflexivity.
  assert (H2 : Repeated.contains repeated_4 (PyList [PyInt 2; PyInt 3])
               = Ok true) by reflexivity.
  split; [exact H1|]. split; [exact H2|].
  apply (Repeated_contains_concatenation (H := lcg) (Discrete 5) repeated_4).
  split; [exact H1|]. split; [exact H2 | simpl; lia].
Defined.

Lemma Simplex_init_returns_iff_witness :
  returns (Simplex.__init__ (tuple_shape [2; 3]) (Some (PyArray ones_2))
                            np.float32 0) /\
  Simplex.__init__ (list_shape [2; 3]) (Some (PyArray ones_2)) np.float32 0
  = Raise AssertionError.
Proof.
  destruct (Simplex_init_returns_iff
              (H := lcg) (tuple_shape [2; 3]) (Some (PyArray ones_2))
              np.float32 0) as [Hiff _].
  destruct (Simplex_init_returns_iff
              (H := lcg) (list_shape [2; 3]) None np.float32 0)
    as [_ Hlist].
  split.
  - apply Hiff. split; [left; reflexivity|]. split; [discriminate|].
    right. exists ones_2. repeat split; reflexivity.
  - apply Hlist; [reflexivity | discriminate].
Defined.
